(** * gsMap: latent representation finder

    A shallow embedding of [src/GPS/find_latent_representation.py]:
    the configuration record, the [Latent_Representation_Finder] class and
    [run_find_latent_representation], with the numerical libraries the
    module calls (scanpy, pandas, sklearn, the GNN-VAE trainer) taken as
    collaborators with a fixed interface.

    Matrix entries are floating-point numbers in the source.  The module
    never computes with them: it slices, subsets, concatenates and reorders
    rows.  They are therefore kept as an abstract scalar type with one
    distinguished not-a-number value, which pandas uses as padding. *)

From stdpp Require Import base option list strings pretty gmap.
From Stdlib Require Import ZArith Lia.

Local Open Scope Z_scope.

(** ** Scalars and matrices *)

Class Scalar := { val : Type; nan : val }.

(** Python exceptions that the module can let escape.  [External] stands
    for whatever a collaborator raises (a failed training run, a failed
    decomposition). *)
Inductive Exc :=
| KeyError (what : string)
| ValueError (what : string)
| IndexError (what : string)
| AttributeError (what : string)
| OSError (what : string)
| External (what : string).

Inductive Result (A : Type) :=
| Ok (a : A)
| Raise (e : Exc).
Arguments Ok {A} a.
Arguments Raise {A} e.

(** A value of a metadata column: null, a string, or an integer. *)
Inductive ObsValue :=
| Null
| Str (s : string)
| Int (z : Z).

#[global] Instance ObsValue_eq_dec : EqDecision ObsValue.
Proof. solve_decision. Defined.

(** [pd.isnull]. *)
Definition isnull (v : ObsValue) : bool :=
  match v with Null => true | _ => false end.

(** Selection of the entries of [l] at the positions where a boolean mask
    is true (numpy / pandas boolean indexing). *)
Fixpoint filter_mask {A : Type} (mask : list bool) (l : list A) : list A :=
  match mask, l with
  | b :: mask', x :: l' =>
      if b then x :: filter_mask mask' l' else filter_mask mask' l'
  | _, _ => []
  end.

(** A Python slice [l[0:stop]]: a negative [stop] counts from the end. *)
Definition py_slice0 {A : Type} (stop : Z) (l : list A) : list A :=
  if stop <? 0
  then firstn (Z.to_nat (Z.of_nat (length l) + stop)) l
  else firstn (Z.to_nat stop) l.

(** Number of entries kept by [py_slice0 stop] on a list of length [n]. *)
Definition py_slice0_len (stop : Z) (n : nat) : nat :=
  if stop <? 0
  then Nat.min (Z.to_nat (Z.of_nat n + stop)) n
  else Nat.min (Z.to_nat stop) n.

Inductive Flavor := seurat | seurat_v3.

#[global] Instance Result_ret : MRet Result := λ A a, Ok a.
#[global] Instance Result_bind : MBind Result := λ A B f r,
  match r with
  | Ok a => f a
  | Raise e => Raise e
  end.

Section DataModel.
Context `{Scalar}.

(** A two-dimensional array: [shape = (length rows, ncols)].  The column
    count is stored so that an array without rows still has a width. *)
Record Matrix := { ncols : nat; rows : list (list val) }.

Definition nrows (m : Matrix) : nat := length (rows m).

(** Every row has [ncols] entries. *)
Definition rectangular (m : Matrix) : Prop :=
  Forall (λ r, length r = ncols m) (rows m).

(** [m[mask, :]] *)
Definition select_rows (mask : list bool) (m : Matrix) : Matrix :=
  {| ncols := ncols m; rows := filter_mask mask (rows m) |}.

(** [m[:, mask]] *)
Definition select_cols (mask : list bool) (m : Matrix) : Matrix :=
  {| ncols := length (filter_mask mask (replicate (ncols m) ()));
     rows := map (filter_mask mask) (rows m) |}.

(** [m[:, 0:stop]] *)
Definition slice_cols (stop : Z) (m : Matrix) : Matrix :=
  {| ncols := py_slice0_len stop (ncols m);
     rows := map (py_slice0 stop) (rows m) |}.

(** The annotated matrix (AnnData): cells by genes, with named layers,
    per-cell metadata columns, the per-gene [highly_variable] flag once
    it has been computed, and the store of named embeddings. *)
Record AnnData := {
  obs_names : list string;
  var_names : list string;
  X : Matrix;
  layers : gmap string Matrix;
  obs : gmap string (list ObsValue);
  highly_variable : option (list bool);
  obsm : gmap string Matrix
}.

Definition n_obs (a : AnnData) : nat := length (obs_names a).

(** [adata[mask, :]] *)
Definition subset_obs (mask : list bool) (a : AnnData) : AnnData :=
  {| obs_names := filter_mask mask (obs_names a);
     var_names := var_names a;
     X := select_rows mask (X a);
     layers := select_rows mask <$> layers a;
     obs := filter_mask mask <$> obs a;
     highly_variable := highly_variable a;
     obsm := select_rows mask <$> obsm a |}.

Definition set_X (m : Matrix) (a : AnnData) : AnnData :=
  {| obs_names := obs_names a; var_names := var_names a; X := m;
     layers := layers a; obs := obs a;
     highly_variable := highly_variable a; obsm := obsm a |}.

Definition set_var_names (vs : list string) (a : AnnData) : AnnData :=
  {| obs_names := obs_names a; var_names := vs; X := X a;
     layers := layers a; obs := obs a;
     highly_variable := highly_variable a; obsm := obsm a |}.

Definition set_highly_variable (hv : list bool) (a : AnnData) : AnnData :=
  {| obs_names := obs_names a; var_names := var_names a; X := X a;
     layers := layers a; obs := obs a;
     highly_variable := Some hv; obsm := obsm a |}.

Definition set_obs (col : string) (vs : list ObsValue) (a : AnnData) : AnnData :=
  {| obs_names := obs_names a; var_names := var_names a; X := X a;
     layers := layers a; obs := <[col := vs]> (obs a);
     highly_variable := highly_variable a; obsm := obsm a |}.

Definition put_obsm (key : string) (m : Matrix) (a : AnnData) : AnnData :=
  {| obs_names := obs_names a; var_names := var_names a; X := X a;
     layers := layers a; obs := obs a;
     highly_variable := highly_variable a; obsm := <[key := m]> (obsm a) |}.

(** [adata.obsm[key] = m]: AnnData refuses an array whose first dimension
    is not the number of cells. *)
Definition set_obsm (key : string) (m : Matrix) (a : AnnData) : Result AnnData :=
  if decide (nrows m = n_obs a)
  then Ok (put_obsm key m a)
  else Raise (ValueError "obsm").

(** [adata.layers[key]].  The layers of a dataset read from a file are
    keyed by strings; the key [None] is never among them. *)
Definition get_layer (key : option string) (a : AnnData) : Result Matrix :=
  match key with
  | None => Raise (KeyError "None")
  | Some k =>
      match layers a !! k with
      | Some m => Ok m
      | None => Raise (KeyError k)
      end
  end.

(** [adata.obs[col]] *)
Definition get_obs (col : string) (a : AnnData) : Result (list ObsValue) :=
  match obs a !! col with
  | Some vs => Ok vs
  | None => Raise (KeyError col)
  end.

(** ** pandas *)

(** [Series.value_counts()[v]] for a value that occurs. *)
Definition value_count (v : ObsValue) (col : list ObsValue) : nat :=
  length (filter (λ x, x = v) col).

(** [Series.unique()]: the distinct values in order of first appearance. *)
Fixpoint unique (col : list ObsValue) : list ObsValue :=
  match col with
  | [] => []
  | v :: col' => v :: filter (λ x, x ≠ v) (unique col')
  end.

(** A row label of a data frame: a position of the default range index,
    or a name. *)
Inductive Label :=
| Pos (i : nat)
| Name (s : string).

#[global] Instance Label_eq_dec : EqDecision Label.
Proof. solve_decision. Defined.

(** A data frame whose columns are labelled [0 .. width-1]. *)
Record DataFrame := { index : list Label; values : Matrix }.

(** [pd.DataFrame()] *)
Definition DataFrame_empty : DataFrame :=
  {| index := []; values := {| ncols := 0; rows := [] |} |}.

(** [pd.DataFrame(m)] *)
Definition DataFrame_of (m : Matrix) : DataFrame :=
  {| index := map Pos (seq 0 (nrows m)); values := m |}.

(** [df.index = names] *)
Definition set_index (names : list string) (df : DataFrame) : Result DataFrame :=
  if decide (length names = length (index df))
  then Ok {| index := map Name names; values := values df |}
  else Raise (ValueError "Length mismatch").

(** Outer join on the columns: a row shorter than the joint width is
    padded with not-a-number. *)
Definition pad_row (w : nat) (r : list val) : list val :=
  r ++ replicate (w - length r) nan.

(** [pd.concat((a, b), axis=0)] *)
Definition concat (a b : DataFrame) : DataFrame :=
  let w := Nat.max (ncols (values a)) (ncols (values b)) in
  {| index := index a ++ index b;
     values := {| ncols := w;
                  rows := map (pad_row w) (rows (values a))
                          ++ map (pad_row w) (rows (values b)) |} |}.

(** The rows of [df] carrying label [l], in frame order. *)
Definition rows_labelled (l : Label) (df : DataFrame) : list (list val) :=
  map snd (filter (λ p, p.1 = l) (zip (index df) (rows (values df)))).

(** [np.array(df.loc[labels,])]: for each requested label, in order, the
    rows that carry it; a label carried by no row raises [KeyError]. *)
Fixpoint loc_rows (labels : list Label) (df : DataFrame) : Result (list (list val)) :=
  match labels with
  | [] => Ok []
  | l :: labels' =>
      match rows_labelled l df with
      | [] => Raise (KeyError "not in index")
      | found =>
          match loc_rows labels' df with
          | Ok rest => Ok (found ++ rest)
          | Raise e => Raise e
          end
      end
  end.

Definition loc (labels : list Label) (df : DataFrame) : Result Matrix :=
  match loc_rows labels df with
  | Ok rs => Ok {| ncols := ncols (values df); rows := rs |}
  | Raise e => Raise e
  end.

End DataModel.

Arguments Matrix {_}.
Arguments AnnData {_}.
Arguments DataFrame {_}.

(** ** Configuration *)

Section Configuration.
Context `{Scalar}.

(** The dataclass of the module.  [output_dir] and [n_nodes] are the two
    attributes the code adds to the object after it has been built. *)
Record FindLatentRepresentationsConfig := {
  input_hdf5_path : string;
  output_hdf5_path : string;
  sample_name : string;
  annotation : option string;
  type : option string;
  epochs : Z;
  feat_hidden1 : Z;
  feat_hidden2 : Z;
  feat_cell : Z;
  gcn_hidden1 : Z;
  gcn_hidden2 : Z;
  p_drop : val;
  gcn_lr : val;
  gcn_decay : val;
  n_neighbors : Z;
  label_w : val;
  rec_w : val;
  input_pca : bool;
  n_comps : Z;
  weighted_adj : bool;
  nheads : Z;
  var : bool;
  convergence_threshold : val;
  hierarchically : bool;
  output_dir : option string;
  n_nodes : option Z
}.

(** [Params.feat_cell = n] *)
Definition set_feat_cell (n : Z) (P : FindLatentRepresentationsConfig) :=
  {| input_hdf5_path := input_hdf5_path P; output_hdf5_path := output_hdf5_path P;
     sample_name := sample_name P; annotation := annotation P; type := type P;
     epochs := epochs P; feat_hidden1 := feat_hidden1 P; feat_hidden2 := feat_hidden2 P;
     feat_cell := n;
     gcn_hidden1 := gcn_hidden1 P; gcn_hidden2 := gcn_hidden2 P; p_drop := p_drop P;
     gcn_lr := gcn_lr P; gcn_decay := gcn_decay P; n_neighbors := n_neighbors P;
     label_w := label_w P; rec_w := rec_w P; input_pca := input_pca P;
     n_comps := n_comps P; weighted_adj := weighted_adj P; nheads := nheads P;
     var := var P; convergence_threshold := convergence_threshold P;
     hierarchically := hierarchically P; output_dir := output_dir P;
     n_nodes := n_nodes P |}.

(** [Params.n_nodes = n] *)
Definition set_n_nodes (n : Z) (P : FindLatentRepresentationsConfig) :=
  {| input_hdf5_path := input_hdf5_path P; output_hdf5_path := output_hdf5_path P;
     sample_name := sample_name P; annotation := annotation P; type := type P;
     epochs := epochs P; feat_hidden1 := feat_hidden1 P; feat_hidden2 := feat_hidden2 P;
     feat_cell := feat_cell P;
     gcn_hidden1 := gcn_hidden1 P; gcn_hidden2 := gcn_hidden2 P; p_drop := p_drop P;
     gcn_lr := gcn_lr P; gcn_decay := gcn_decay P; n_neighbors := n_neighbors P;
     label_w := label_w P; rec_w := rec_w P; input_pca := input_pca P;
     n_comps := n_comps P; weighted_adj := weighted_adj P; nheads := nheads P;
     var := var P; convergence_threshold := convergence_threshold P;
     hierarchically := hierarchically P; output_dir := output_dir P;
     n_nodes := Some n |}.

(** [args.output_dir = d] *)
Definition set_output_dir (d : string) (P : FindLatentRepresentationsConfig) :=
  {| input_hdf5_path := input_hdf5_path P; output_hdf5_path := output_hdf5_path P;
     sample_name := sample_name P; annotation := annotation P; type := type P;
     epochs := epochs P; feat_hidden1 := feat_hidden1 P; feat_hidden2 := feat_hidden2 P;
     feat_cell := feat_cell P;
     gcn_hidden1 := gcn_hidden1 P; gcn_hidden2 := gcn_hidden2 P; p_drop := p_drop P;
     gcn_lr := gcn_lr P; gcn_decay := gcn_decay P; n_neighbors := n_neighbors P;
     label_w := label_w P; rec_w := rec_w P; input_pca := input_pca P;
     n_comps := n_comps P; weighted_adj := weighted_adj P; nheads := nheads P;
     var := var P; convergence_threshold := convergence_threshold P;
     hierarchically := hierarchically P; output_dir := Some d;
     n_nodes := n_nodes P |}.

(** The fields of the configuration that no statement of the module
    assigns: everything but [feat_cell], [n_nodes] and [output_dir]. *)
Definition frozen (P : FindLatentRepresentationsConfig) : FindLatentRepresentationsConfig :=
  set_output_dir "" (set_n_nodes 0 (set_feat_cell 0 P)).

(** ** The world of a run *)

(** A file of the store: a complete dataset, or the remains of a write
    that did not finish. *)
Inductive File :=
| Dataset (a : AnnData)
| Truncated.

(** Calls to the collaborators that the claims speak about, in the order
    in which they are made. *)
Inductive Event :=
| EvHVG (fl : Flavor) (n_top_genes : Z) (cells : list string)
| EvAdjacency (cells : list string)
| EvTrain (cells : list string) (nodes width : Z)
          (label : option (list Z)) (verbose : ObsValue)
| EvPCA (cells : list string)
| EvWrite (path : string).

(** The one configuration object of the run (every finder holds a
    reference to it, not a copy), the file store, and the call log. *)
Record World := {
  args : FindLatentRepresentationsConfig;
  files : gmap string File;
  dirs : gset string;
  trace : list Event
}.

(** Computations that read and update the world and may raise.  The world
    reached when an exception escapes is kept. *)
Definition Eff (A : Type) : Type := World → Result A * World.

Definition Eff_ret {A : Type} (a : A) : Eff A := λ w, (Ok a, w).

Definition Eff_bind {A B : Type} (f : A → Eff B) (m : Eff A) : Eff B :=
  λ w, match m w with
       | (Ok a, w') => f a w'
       | (Raise e, w') => (Raise e, w')
       end.

#[global] Instance Eff_mret : MRet Eff := @Eff_ret.
#[global] Instance Eff_mbind : MBind Eff := @Eff_bind.

Definition lift {A : Type} (r : Result A) : Eff A := λ w, (r, w).

Definition get_args : Eff FindLatentRepresentationsConfig := λ w, (Ok (args w), w).

Definition modify_args (f : FindLatentRepresentationsConfig → FindLatentRepresentationsConfig)
  : Eff () :=
  λ w, (Ok (), {| args := f (args w); files := files w; dirs := dirs w;
                  trace := trace w |}).

Definition log (e : Event) : Eff () :=
  λ w, (Ok (), {| args := args w; files := files w; dirs := dirs w;
                  trace := trace w ++ [e] |}).

End Configuration.

Arguments FindLatentRepresentationsConfig {_}.
Arguments File {_}.
Arguments World {_}.
Arguments Eff {_} A.

(** ** Collaborators *)

(** The routines the module calls and does not define: scanpy's
    preprocessing, decomposition and embedding functions, sklearn's label
    encoder, pathlib, the dataset writer, and the two modules of this
    package that build the neighbour graph and train the GNN-VAE
    ([GPS.GNN_VAE.adjacency_matrix], [GPS.GNN_VAE.train]).  Each may raise. *)
Class Collaborators `{Scalar} := {
  Graph : Type;
  (** [Path(p).parent] *)
  path_parent : string → string;
  (** [Path.mkdir(parents=True, exist_ok=True, mode=0o755)] *)
  mkdir : string → gset string → Result (gset string);
  (** [adata.var_names_make_unique()] *)
  var_names_make_unique : list string → list string;
  (** [preprocessing.LabelEncoder().fit(col).transform(col)] *)
  LabelEncoder : list ObsValue → Result (list Z);
  (** [sc.pp.highly_variable_genes(adata, flavor, n_top_genes)]: the new
      [var.highly_variable] column. *)
  highly_variable_genes : Flavor → Z → AnnData → Result (list bool);
  (** [sc.pp.normalize_total(adata, target_sum=1e4)], [sc.pp.log1p],
      [sc.pp.scale]: the new [X]. *)
  normalize_total : Matrix → Result Matrix;
  log1p : Matrix → Result Matrix;
  scale : Matrix → Result Matrix;
  Construct_Adjacency_Matrix : AnnData → FindLatentRepresentationsConfig → Result Graph;
  (** [sc.pp.pca(X, n_comps)] *)
  pp_pca : Matrix → Z → Result Matrix;
  (** [Model_Train(node_X, graph_dict, Params, label)], [run_train()] and
      [get_latent()]. *)
  Model_Train : Matrix → Graph → FindLatentRepresentationsConfig →
                option (list Z) → Result Matrix;
  (** [sc.tl.pca(adata)], called with its own default number of
      components: the matrix it stores under [X_pca]. *)
  tl_pca : AnnData → Result Matrix;
  (** [sc.pp.neighbors(adata, n_neighbors, use_rep)] followed by
      [sc.tl.umap(adata)]: the matrix stored under [X_umap]. *)
  neighbors_umap : Z → string → AnnData → Result Matrix;
  (** [adata.write(path)] *)
  write_h5ad : AnnData → string → gmap string File → Result () * gmap string File
}.

Section Pipeline.
Context `{Collaborators}.

Definition raise {A : Type} (e : Exc) : Eff A := lift (Raise e).

(** [sc.read_h5ad(path)] *)
Definition read_h5ad (path : string) : Eff AnnData :=
  λ w, match files w !! path with
       | Some (Dataset a) => (Ok a, w)
       | Some Truncated => (Raise (OSError "unable to open file"), w)
       | None => (Raise (OSError "no such file"), w)
       end.

Definition make_dirs (d : string) : Eff () :=
  λ w, match mkdir d (dirs w) with
       | Ok ds => (Ok (), {| args := args w; files := files w; dirs := ds;
                             trace := trace w |})
       | Raise e => (Raise e, w)
       end.

Definition write (a : AnnData) (path : string) : Eff () :=
  λ w, let '(r, fs) := write_h5ad a path (files w) in
       (r, {| args := args w; files := fs; dirs := dirs w;
              trace := trace w ++ [EvWrite path] |}).

(** *** class Latent_Representation_Finder *)

(** The object holds its own copy of the dataset; [self.Params] is the
    configuration object of the world. *)
Record Finder := { self_adata : AnnData }.

(** [__init__] *)
Definition Latent_Representation_Finder (adata : AnnData) : Eff Finder :=
  Params ← get_args;
  if bool_decide (type Params = Some "count" ∨ type Params = Some "counts")
  then
    x ← lift (get_layer (type Params) adata);
    let a := set_X x adata in
    log (EvHVG seurat_v3 (feat_cell Params) (obs_names a));;
    hv ← lift (highly_variable_genes seurat_v3 (feat_cell Params) a);
    let a := set_highly_variable hv a in
    x ← lift (normalize_total (X a));
    x ← lift (log1p x);
    x ← lift (scale x);
    mret {| self_adata := set_X x a |}
  else
    x ← lift (get_layer (type Params) adata);
    let a := set_X x adata in
    log (EvHVG seurat (feat_cell Params) (obs_names a));;
    hv ← lift (highly_variable_genes seurat (feat_cell Params) a);
    mret {| self_adata := set_highly_variable hv a |}.

(** [self.adata[:, self.adata.var.highly_variable].X] *)
Definition node_features (a : AnnData) : Result Matrix :=
  match highly_variable a with
  | None => Raise (AttributeError "highly_variable")
  | Some hv =>
      if decide (length hv = ncols (X a))
      then Ok (select_cols hv (X a))
      else Raise (IndexError "boolean index")
  end.

Definition Run_GNN_VAE (self : Finder) (label : option (list Z))
    (verbose : ObsValue) : Eff Matrix :=
  Params ← get_args;
  log (EvAdjacency (obs_names (self_adata self)));;
  graph_dict ← lift (Construct_Adjacency_Matrix (self_adata self) Params);
  node_X ← lift (node_features (self_adata self));
  node_X ← (if input_pca Params
            then lift (pp_pca node_X (n_comps Params))
            else mret node_X);
  modify_args (set_n_nodes (Z.of_nat (nrows node_X)));;
  modify_args (set_feat_cell (Z.of_nat (ncols node_X)));;
  Params ← get_args;
  log (EvTrain (obs_names (self_adata self)) (Z.of_nat (nrows node_X))
         (Z.of_nat (ncols node_X)) label verbose);;
  lift (Model_Train node_X graph_dict Params label).

(** [Run_PCA] stores the decomposition in the finder's dataset and returns
    its leading columns; the finder as it is afterwards is returned too. *)
Definition Run_PCA (self : Finder) : Eff (Matrix * Finder) :=
  log (EvPCA (obs_names (self_adata self)));;
  pcs ← lift (tl_pca (self_adata self));
  a ← lift (set_obsm "X_pca" pcs (self_adata self));
  Params ← get_args;
  match obsm a !! "X_pca" with
  | Some m => mret (slice_cols (n_comps Params) m, {| self_adata := a |})
  | None => raise (KeyError "X_pca")
  end.

(** *** run_find_latent_representation *)

(** Lines 142-153: the cells kept for the run and their label vector. *)
Definition load_labels (adata : AnnData) : Eff (AnnData * option (list Z)) :=
  a ← get_args;
  match annotation a with
  | Some ann =>
      col ← lift (get_obs ann adata);
      let adata := subset_obs (map (λ v, negb (isnull v)) col) adata in
      num ← lift (get_obs ann adata);
      let kept := filter (λ v, (30 ≤ value_count v num)%nat) (unique num) in
      col ← lift (get_obs ann adata);
      let adata := subset_obs (map (λ v, bool_decide (v ∈ kept)) col) adata in
      col ← lift (get_obs ann adata);
      codes ← lift (LabelEncoder col);
      (if decide (length codes = n_obs adata)
       then mret (set_obs "categorical_label" (map Int codes) adata, Some codes)
       else raise (ValueError "Length of values does not match length of index"))
  | None => mret (adata, None)
  end.

(** Lines 163-166, one round of the loop over the two embeddings. *)
Definition add_umap (name : string) (adata : AnnData) : Eff AnnData :=
  u ← lift (neighbors_umap 10 name adata);
  adata ← lift (set_obsm "X_umap" u adata);
  match obsm adata !! "X_umap" with
  | Some m => lift (set_obsm ("X_umap_" +:+ name) m adata)
  | None => raise (KeyError "X_umap")
  end.

(** What [latent_GVAE_part] refers to: the very frame [latent_PCA_part]
    refers to (line 184), or a frame of its own (line 186). *)
Inductive PartRef :=
| SameAsPCA
| Own (df : DataFrame).

(** Lines 188-189: the two index assignments, through the references.
    Returns the frames then reached from [latent_GVAE_part] and from
    [latent_PCA_part]. *)
Definition assign_index (names : list string) (g : PartRef) (p : DataFrame)
  : Result (DataFrame * DataFrame) :=
  match g with
  | SameAsPCA =>
      p ← set_index names p;
      p ← set_index names p;
      mret (p, p)
  | Own df =>
      df ← set_index names df;
      p ← set_index names p;
      mret (df, p)
  end.

(** The variables that live across the rounds of the hierarchical loop. *)
Record LoopState := {
  loop_adata : AnnData;
  PCA_all : DataFrame;
  GVAE_all : DataFrame
}.

(** [adata[col == ct, :]] *)
Definition select_group (ct : ObsValue) (col : list ObsValue) (adata : AnnData)
  : AnnData :=
  subset_obs (map (λ v, bool_decide (v = ct)) col) adata.

(** The cells of the group of [ct]; none when the column is missing. *)
Definition group_cells (ann : string) (ct : ObsValue) (adata : AnnData) : list string :=
  match get_obs ann adata with
  | Ok col => obs_names (select_group ct col adata)
  | Raise _ => []
  end.

(** Lines 176-189: the two frames of one annotation group. *)
Definition group_latents (ann : string) (ct : ObsValue) (adata : AnnData)
  : Eff (DataFrame * DataFrame) :=
  col ← lift (get_obs ann adata);
  let adata_part := select_group ct col adata in
  latent_rep ← Latent_Representation_Finder adata_part;
  '(pcs, latent_rep) ← Run_PCA latent_rep;
  let latent_PCA_part := DataFrame_of pcs in
  a ← get_args;
  latent_GVAE_part ←
    (if Z.of_nat (n_obs adata_part) <=? n_comps a
     then mret SameAsPCA
     else m ← Run_GNN_VAE latent_rep None ct; mret (Own (DataFrame_of m)));
  lift (assign_index (obs_names adata_part) latent_GVAE_part latent_PCA_part).

(** Lines 176-197: the body of the loop. *)
Definition hier_step (num_features : Z) (ann : string) (ct : ObsValue)
    (st : LoopState) : Eff LoopState :=
  let adata := loop_adata st in
  '(latent_GVAE_part, latent_PCA_part) ← group_latents ann ct adata;
  let GVAE_all := concat (GVAE_all st) latent_GVAE_part in
  let PCA_all := concat (PCA_all st) latent_PCA_part in
  modify_args (set_feat_cell num_features);;
  g ← lift (loc (map Name (obs_names adata)) GVAE_all);
  adata ← lift (set_obsm "latent_GVAE_hierarchy" g adata);
  p ← lift (loc (map Name (obs_names adata)) PCA_all);
  adata ← lift (set_obsm "latent_PCA_hierarchy" p adata);
  mret {| loop_adata := adata; PCA_all := PCA_all; GVAE_all := GVAE_all |}.

(** Line 175: the loop over the distinct annotation values. *)
Fixpoint hier_loop (num_features : Z) (ann : string) (cts : list ObsValue)
    (st : LoopState) : Eff LoopState :=
  match cts with
  | [] => mret st
  | ct :: cts' =>
      st ← hier_step num_features ann ct st;
      hier_loop num_features ann cts' st
  end.

(** Lines 170-197. *)
Definition hierarchy (num_features : Z) (adata : AnnData) : Eff AnnData :=
  a ← get_args;
  match annotation a with
  | Some ann =>
      if hierarchically a
      then
        col ← lift (get_obs ann adata);
        st ← hier_loop num_features ann (unique col)
               {| loop_adata := adata; PCA_all := DataFrame_empty;
                  GVAE_all := DataFrame_empty |};
        mret (loop_adata st)
      else mret adata
  | None => mret adata
  end.

(** Lines 136-153: the dataset and the labels the run works on. *)
Definition load : Eff (AnnData * option (list Z)) :=
  a ← get_args;
  adata ← read_h5ad (input_hdf5_path a);
  let adata := set_var_names (var_names_make_unique (var_names adata)) adata in
  load_labels adata.

(** Lines 155-166: the two embeddings of the whole dataset and their
    projections. *)
Definition whole_latents (adata : AnnData) (label : option (list Z)) : Eff AnnData :=
  latent_rep ← Latent_Representation_Finder adata;
  latent_GVAE ← Run_GNN_VAE latent_rep label (Str "whole ST data");
  '(latent_PCA, latent_rep) ← Run_PCA latent_rep;
  adata ← lift (set_obsm "latent_GVAE" latent_GVAE adata);
  adata ← lift (set_obsm "latent_PCA" latent_PCA adata);
  adata ← add_umap "latent_GVAE" adata;
  add_umap "latent_PCA" adata.

(** Lines 134-153: the output directory, then the dataset and its labels. *)
Definition setup : Eff (AnnData * option (list Z)) :=
  a ← get_args;
  let output_dir := path_parent (output_hdf5_path a) in
  modify_args (set_output_dir output_dir);;
  make_dirs output_dir;;
  load.

(** Everything before the final write. *)
Definition compute : Eff AnnData :=
  a ← get_args;
  let num_features := feat_cell a in
  '(adata, label) ← setup;
  adata ← whole_latents adata label;
  hierarchy num_features adata.

Definition run_find_latent_representation : Eff () :=
  adata ← compute;
  a ← get_args;
  write adata (output_hdf5_path a).

End Pipeline.

Arguments Finder {_}.
Arguments LoopState {_}.
Arguments PartRef {_}.

(** ** Reading the call log *)

(** The cells a logged call was made on. *)
Definition event_cells (e : Event) : list string :=
  match e with
  | EvHVG _ _ cells | EvAdjacency cells | EvTrain cells _ _ _ _ | EvPCA cells => cells
  | EvWrite _ => []
  end.

(** [n_top_genes] of a gene-selection call. *)
Definition hvg_top (e : Event) : option Z :=
  match e with EvHVG _ n _ => Some n | _ => None end.

(** The label vector and the feature width of a training call. *)
Definition train_label (e : Event) : option (option (list Z)) :=
  match e with EvTrain _ _ _ label _ => Some label | _ => None end.

Definition train_width (e : Event) : option Z :=
  match e with EvTrain _ _ width _ _ => Some width | _ => None end.

Definition is_pca (e : Event) : bool :=
  match e with EvPCA _ => true | _ => false end.

Definition is_train (e : Event) : bool :=
  match e with EvTrain _ _ _ _ _ => true | _ => false end.

Definition is_write (e : Event) : bool :=
  match e with EvWrite _ => true | _ => false end.

(** The filter of lines 144-146 as the specification words it: a cell is
    kept when its annotation is not null and is shared by at least thirty
    cells. *)
Definition retained (col : list ObsValue) (v : ObsValue) : Prop :=
  v ≠ Null ∧ (30 ≤ value_count v col)%nat.

#[global] Instance retained_dec col v : Decision (retained col v).
Proof. unfold retained. apply _. Defined.

Definition retained_cells `{Scalar} (col : list ObsValue) (adata : AnnData) : AnnData :=
  subset_obs (map (λ v, bool_decide (retained col v)) col) adata.

(** The calls of [whole_latents], in order. *)
Definition whole_calls (fl : Flavor) (top : Z) (cells : list string) (nodes width : Z)
    (label : option (list Z)) : list Event :=
  [EvHVG fl top cells; EvAdjacency cells;
   EvTrain cells nodes width label (Str "whole ST data"); EvPCA cells].

(** The calls of one round of the hierarchical loop, in order; a round
    that takes the branch of line 184 stops after the second. *)
Definition group_calls (fl : Flavor) (top : Z) (cells : list string) (nodes width : Z)
    (ct : ObsValue) : list Event :=
  [EvHVG fl top cells; EvPCA cells; EvAdjacency cells;
   EvTrain cells nodes width None ct].

(** The shape of the [n_top_genes] arguments over a stretch of the run:
    the first is [first], all later ones are [later]. *)
Definition tops_reset (first later : Z) (tops : list Z) : Prop :=
  match tops with
  | [] => True
  | t :: rest => t = first ∧ Forall (λ t', t' = later) rest
  end.

(** Modelled from the spec: the label term of the training loss in
    [GPS.GNN_VAE.train], which is not part of this module.  The spec gives
    the loss as a reconstruction term plus a KL term plus a
    [label_w]-scaled classification term, with zero contribution when no
    labels are supplied. *)
Definition label_term {V : Type} (zero : V) (scaled_classification : list Z → V)
    (label : option (list Z)) : V :=
  match label with
  | None => zero
  | Some l => scaled_classification l
  end.

(** ** States and keys used to describe whole runs *)

Section RunStates.
Context `{Collaborators}.

(** The world after lines 134-135: the output directory is recorded in the
    configuration and exists. *)
Definition with_output_dir (ds : gset string) (w : World) : World :=
  {| args := set_output_dir (path_parent (output_hdf5_path (args w))) (args w);
     files := files w; dirs := ds; trace := trace w |}.

End RunStates.

(** The keys of [obsm] that lines 160-166 assign. *)
Definition embedding_keys : list string :=
  ["latent_GVAE"; "latent_PCA"; "X_umap"; "X_umap_latent_GVAE"; "X_umap_latent_PCA"].

(** ** A concrete instance

    Integers stand for the floating-point entries, [-1] for not-a-number.
    The collaborators are small deterministic stand-ins with the shapes of
    the real ones; [train_ok] and [disk_ok] choose whether the GNN-VAE
    training and the final write succeed. *)
Module Sample.

#[local] Instance scalar : Scalar := {| val := Z; nan := -1 |}.

(** [sc.tl.pca] keeps [min(50, min(n_obs, n_vars) - 1)] components. *)
Definition default_pcs (a : AnnData) : Z :=
  Z.min 50 (Z.min (Z.of_nat (n_obs a)) (Z.of_nat (ncols (X a))) - 1).

Definition position (v : ObsValue) (l : list ObsValue) : Z :=
  Z.of_nat (default 0%nat (fst <$> list_find (λ x, x = v) l)).

Definition collaborators (train_ok disk_ok : bool) : Collaborators := {|
  Graph := unit;
  path_parent := λ _, "out";
  mkdir := λ d ds, Ok ({[d]} ∪ ds);
  var_names_make_unique := λ vs, vs;
  LabelEncoder := λ col, Ok (map (λ v, position v (unique col)) col);
  highly_variable_genes := λ _ _ a, Ok (replicate (ncols (X a)) true);
  normalize_total := Ok;
  log1p := Ok;
  scale := Ok;
  Construct_Adjacency_Matrix := λ _ _, Ok ();
  pp_pca := λ m k,
    if decide (0 < k ≤ Z.min (Z.of_nat (nrows m)) (Z.of_nat (ncols m)))
    then Ok (slice_cols k m)
    else Raise (External "n_components");
  Model_Train := λ m _ P _,
    if train_ok then Ok (slice_cols (gcn_hidden2 P) m)
    else Raise (External "non-finite loss");
  tl_pca := λ a, Ok (slice_cols (default_pcs a) (X a));
  neighbors_umap := λ _ name a,
    match obsm a !! name with
    | Some m => Ok (slice_cols 2 m)
    | None => Raise (KeyError name)
    end;
  write_h5ad := λ a path fs,
    if disk_ok then (Ok (), <[path := Dataset a]> fs)
    else (Raise (OSError "no space left on device"), <[path := Truncated]> fs)
|}.

(** A [cells] by [genes] matrix with distinct entries. *)
Definition counts (cells genes : nat) : Matrix :=
  {| ncols := genes;
     rows := map (λ i, map (λ j, Z.of_nat (100 * i + j)) (seq 0 genes))
                 (seq 0 cells) |}.

Definition cell_name (i : nat) : string := "c" +:+ pretty i.

(** A dataset whose cells carry the given names and annotation values (in
    a column named [layer_guess]), with one layer named [count]. *)
Definition dataset_named (names : list string) (genes : nat) (annot : list ObsValue)
  : AnnData :=
  {| obs_names := names;
     var_names := map (λ j, "g" +:+ pretty j) (seq 0 genes);
     X := counts (length annot) genes;
     layers := {[ "count" := counts (length annot) genes ]};
     obs := {[ "layer_guess" := annot ]};
     highly_variable := None;
     obsm := ∅ |}.

Definition dataset (genes : nat) (annot : list ObsValue) : AnnData :=
  dataset_named (map cell_name (seq 0 (length annot))) genes annot.

Definition config (ann ty : option string) (pca : bool) (comps : Z) (hier : bool)
  : FindLatentRepresentationsConfig :=
  {| input_hdf5_path := "in.h5ad"; output_hdf5_path := "out/latent.h5ad";
     sample_name := "sample"; annotation := ann; type := ty;
     epochs := 300; feat_hidden1 := 256; feat_hidden2 := 128;
     feat_cell := 3000; gcn_hidden1 := 64; gcn_hidden2 := 30;
     p_drop := 0; gcn_lr := 0; gcn_decay := 0; n_neighbors := 11;
     label_w := 1; rec_w := 1; input_pca := pca; n_comps := comps;
     weighted_adj := false; nheads := 3; var := false;
     convergence_threshold := 0; hierarchically := hier;
     output_dir := None; n_nodes := None |}.

Definition world (P : FindLatentRepresentationsConfig) (a : AnnData) : World :=
  {| args := P; files := {[ "in.h5ad" := Dataset a ]}; dirs := ∅; trace := [] |}.

(** Thirty cells of layer L1 followed by thirty cells of layer L2. *)
Definition two_layers : list ObsValue :=
  replicate 30 (Str "L1") ++ replicate 30 (Str "L2").

(** Forty cells of one layer, five of another, and three without annotation. *)
Definition one_layer : list ObsValue :=
  replicate 40 (Str "L1") ++ replicate 5 (Str "L2") ++ replicate 3 Null.

(** Forty cells of one layer. *)
Definition single_layer : list ObsValue := replicate 40 (Str "L1").

(** The variables of the hierarchical loop before its first round. *)
Definition loop_start (a : AnnData) : LoopState :=
  {| loop_adata := a; PCA_all := DataFrame_empty; GVAE_all := DataFrame_empty |}.

(** The command line of the module's own test block: annotation
    [layer_guess], type [count], everything else at its default but the
    number of components. *)
Definition annotated (comps : Z) (hier : bool) : FindLatentRepresentationsConfig :=
  config (Some "layer_guess") (Some "count") true comps hier.

(** Sixty cells in two layers of thirty. *)
Definition two_groups (comps : Z) (hier : bool) : World :=
  world (annotated comps hier) (dataset 12 two_layers).

(** The same sixty cells, but the thirty names of the first layer are
    used again for the second. *)
Definition two_groups_shared_names : World :=
  world (annotated 10 true)
    (dataset_named (map cell_name (seq 0 30) ++ map cell_name (seq 0 30)) 12 two_layers).

(** That world as the whole-dataset training leaves it: sixty nodes, ten
    features. *)
Definition entering_loop : World :=
  {| args := set_feat_cell 10 (set_n_nodes 60 (args two_groups_shared_names));
     files := files two_groups_shared_names;
     dirs := {[ "out" ]};
     trace := [] |}.

(** Forty-eight cells of which forty pass the filter, all of one layer;
    no PCA on the input, the default number of components. *)
Definition one_group : World :=
  world (config (Some "layer_guess") (Some "count") false 300 true)
    (dataset 12 one_layer).

(** The same cells with the data-type tag left unset. *)
Definition type_unset : World :=
  world (config (Some "layer_guess") None true 10 false) (dataset 12 one_layer).

(** Three cells, two of one annotation value and one of another; three
    cells of one value. *)
Definition mixed : list ObsValue := [Str "A"; Str "B"; Str "A"].

(** Three cells by three genes. *)
Definition tiny (annot : list ObsValue) : AnnData := dataset 3 annot.

(** No annotation given. *)
Definition plain : World :=
  world (config None (Some "count") true 2 false) (tiny mixed).

(** No file at the input path. *)
Definition no_input : World :=
  {| args := annotated 10 false; files := ∅; dirs := ∅; trace := [] |}.

(** An annotation column that the dataset does not have. *)
Definition wrong_column : World :=
  world (config (Some "cluster") (Some "count") true 2 false) (tiny mixed).

(** An annotation column none of whose values is shared by thirty cells. *)
Definition few_cells : World := world (annotated 2 false) (tiny mixed).

Definition two_values : World := world (annotated 2 true) (tiny mixed).

Definition healthy : Collaborators := collaborators true true.
Definition failing_training : Collaborators := collaborators false true.
Definition failing_disk : Collaborators := collaborators true false.

End Sample.


(** * Properties *)

(** ** Lists, masks and slices *)

Lemma filter_mask_map {A B : Type} (f : A → bool) (l : list A) (l' : list B) :
  filter_mask (map f l) l' = (filter (λ p, f p.1 = true) (zip l l')).*2.
Proof.
  revert l'. induction l as [|a l IH]; intros [|b l']; simpl; try done.
  rewrite filter_cons. simpl. destruct (f a) eqn:E; rewrite IH.
  - by rewrite decide_True.
  - by rewrite decide_False.
Qed.

Lemma filter_mask_self {A : Type} (f : A → bool) (l : list A) :
  filter_mask (map f l) l = filter (λ x, f x = true) l.
Proof.
  induction l as [|a l IH]; simpl; [done|].
  rewrite filter_cons. destruct (f a); rewrite IH.
  - by rewrite decide_True.
  - by rewrite decide_False.
Qed.

Lemma filter_mask_sublist {A : Type} (mask : list bool) (l : list A) :
  sublist (filter_mask mask l) l.
Proof.
  revert l. induction mask as [|b mask IH]; intros [|x l]; simpl;
    try apply sublist_nil_l.
  destruct b; [apply sublist_skip | apply sublist_cons]; apply IH.
Qed.

Lemma py_slice0_length {A : Type} (stop : Z) (l : list A) :
  length (py_slice0 stop l) = py_slice0_len stop (length l).
Proof.
  unfold py_slice0, py_slice0_len. destruct (stop <? 0); by rewrite length_take.
Qed.

(** ** Running a computation step by step *)

Lemma bind_run `{Scalar} {A B : Type} (m : Eff A) (f : A → Eff B) (w : World) :
  (m ≫= f) w = match m w with
                | (Ok a, w') => f a w'
                | (Raise e, w') => (Raise e, w')
                end.
Proof. reflexivity. Qed.

(** Unfolds the monad of the model; what remains are the matches on the
    results of the collaborators. *)
Ltac eff_unfold :=
  unfold mbind, mret, Eff_mbind, Eff_mret, Result_bind, Result_ret,
    Eff_bind, Eff_ret, raise, lift, get_args, modify_args, log in *.

(** Case analysis on every result that is still matched on. *)
Ltac eff_cases :=
  repeat (simpl in *; simplify_eq; try case_match).

Section Properties.
Context `{Collaborators}.

(** ** The finder *)

Lemma finder_init_run (adata : AnnData) (w : World) r w' :
  Latent_Representation_Finder adata w = (r, w') →
  args w' = args w ∧ files w' = files w ∧ dirs w' = dirs w ∧
  (trace w' = trace w ∨
   ∃ fl, trace w' = trace w ++ [EvHVG fl (feat_cell (args w)) (obs_names adata)]) ∧
  ∀ self, r = Ok self →
    obs_names (self_adata self) = obs_names adata ∧
    (∃ fl, trace w' = trace w ++ [EvHVG fl (feat_cell (args w)) (obs_names adata)]).
Proof.
  unfold Latent_Representation_Finder. eff_unfold. intros Hrun.
  destruct w as [P fs ds tr].
  eff_cases; repeat split; eauto; intros; simplify_eq; eauto.
Qed.

Lemma set_obsm_run key m (a a' : AnnData) :
  set_obsm key m a = Ok a' →
  nrows m = n_obs a ∧ a' = put_obsm key m a.
Proof. unfold set_obsm. case_decide; naive_solver. Qed.

Lemma Run_PCA_run (self : Finder) (w : World) r w' :
  Run_PCA self w = (r, w') →
  args w' = args w ∧ files w' = files w ∧ dirs w' = dirs w ∧
  trace w' = trace w ++ [EvPCA (obs_names (self_adata self))] ∧
  ∀ m self', r = Ok (m, self') →
    obs_names (self_adata self') = obs_names (self_adata self) ∧
    ∃ pcs, tl_pca (self_adata self) = Ok pcs ∧
           m = slice_cols (n_comps (args w)) pcs.
Proof.
  unfold Run_PCA. eff_unfold. intros Hrun. destruct w as [P fs ds tr].
  simpl in *. destruct (tl_pca (self_adata self)) as [pcs|e]; simpl in *;
    [|by simplify_eq].
  destruct (set_obsm "X_pca" pcs (self_adata self)) as [a|e] eqn:Hset;
    simpl in *; [|by simplify_eq].
  apply set_obsm_run in Hset as [_ ->]. simpl in Hrun.
  rewrite lookup_insert_eq in Hrun. simplify_eq/=.
  split_and!; try done. intros m self' ?; simplify_eq/=; eauto.
Qed.

Lemma Run_GNN_VAE_run (self : Finder) label verbose (w : World) r w' :
  Run_GNN_VAE self label verbose w = (r, w') →
  frozen (args w') = frozen (args w) ∧ files w' = files w ∧ dirs w' = dirs w ∧
  ((∃ e, r = Raise e) ∧ args w' = args w ∧
   trace w' = trace w ++ [EvAdjacency (obs_names (self_adata self))]
   ∨
   ∃ x node_X,
     node_features (self_adata self) = Ok x ∧
     (if input_pca (args w) then pp_pca x (n_comps (args w)) = Ok node_X
      else node_X = x) ∧
     feat_cell (args w') = Z.of_nat (ncols node_X) ∧
     n_nodes (args w') = Some (Z.of_nat (nrows node_X)) ∧
     trace w' = trace w ++
       [EvAdjacency (obs_names (self_adata self));
        EvTrain (obs_names (self_adata self)) (Z.of_nat (nrows node_X))
          (Z.of_nat (ncols node_X)) label verbose]).
Proof.
  unfold Run_GNN_VAE. eff_unfold. intros Hrun. destruct w as [P fs ds tr].
  simpl in *.
  destruct (Construct_Adjacency_Matrix _ _); simpl in *; [|naive_solver].
  destruct (node_features _) as [x|]; simpl in *; [|naive_solver].
  destruct (input_pca P) eqn:Hpca; simpl in *.
  - destruct (pp_pca x (n_comps P)) as [node_X|] eqn:Hx; simpl in *; [|naive_solver].
    simplify_eq/=. split_and!; try done. right. exists x, node_X.
    rewrite <- app_assoc. done.
  - simplify_eq/=. split_and!; try done. right. exists x, x.
    rewrite <- app_assoc. done.
Qed.

(** ** The stages of a run *)

Lemma load_labels_pure (adata : AnnData) (w : World) r w' :
  load_labels adata w = (r, w') → w' = w.
Proof.
  unfold load_labels. eff_unfold. intros Hrun. eff_cases; done.
Qed.

Lemma setup_run (w : World) r w' :
  setup w = (r, w') →
  frozen (args w') = frozen (args w) ∧
  feat_cell (args w') = feat_cell (args w) ∧
  files w' = files w ∧ trace w' = trace w.
Proof.
  unfold setup, load, make_dirs, read_h5ad. eff_unfold. intros Hrun.
  eff_cases; try done.
  match goal with Hl : load_labels _ _ = _ |- _ => apply load_labels_pure in Hl as -> end.
  done.
Qed.

Lemma add_umap_run (name : string) (adata : AnnData) (w : World) r w' :
  add_umap name adata w = (r, w') →
  w' = w ∧ ∀ a, r = Ok a → obs_names a = obs_names adata ∧ obs a = obs adata.
Proof.
  unfold add_umap, set_obsm. eff_unfold. intros Hrun.
  eff_cases; split; try done; intros; simplify_eq; done.
Qed.

Lemma whole_latents_run (adata : AnnData) label (w : World) r w' :
  whole_latents adata label w = (r, w') →
  frozen (args w') = frozen (args w) ∧ files w' = files w ∧
  ∃ fl nodes width evs,
    trace w' = trace w ++ evs ∧
    evs `prefix_of` whole_calls fl (feat_cell (args w)) (obs_names adata) nodes width label ∧
    ∀ a, r = Ok a →
      evs = whole_calls fl (feat_cell (args w)) (obs_names adata) nodes width label ∧
      feat_cell (args w') = width ∧
      (input_pca (args w) = true →
       ∃ x node_X, pp_pca x (n_comps (args w)) = Ok node_X ∧
                   width = Z.of_nat (ncols node_X)) ∧
      obs_names a = obs_names adata ∧ obs a = obs adata.
Proof.
  unfold whole_latents. rewrite bind_run.
  destruct (Latent_Representation_Finder adata w) as [[self|e] w1] eqn:H1;
    apply finder_init_run in H1 as (Ha1 & Hf1 & _ & Ht1 & Hok1).
  2:{ intros [= <- <-]. split_and!; [by rewrite Ha1 | done |].
      destruct Ht1 as [Ht|[fl Ht]].
      - exists seurat, 0, 0, []. rewrite app_nil_r. split_and!; try done.
        apply prefix_nil.
      - exists fl, 0, 0, [EvHVG fl (feat_cell (args w)) (obs_names adata)].
        split_and!; try done. by eexists. }
  destruct (Hok1 _ eq_refl) as (Hn1 & fl & Ht1'). clear Ht1 Hok1.
  rewrite bind_run.
  destruct (Run_GNN_VAE self label (Str "whole ST data") w1) as [[g|e] w2] eqn:H2;
    apply Run_GNN_VAE_run in H2 as (Ha2 & Hf2 & _ & Ht2);
    rewrite Hn1 in Ht2.
  2:{ intros [= <- <-].
      split_and!; [by rewrite Ha2, Ha1 | by rewrite Hf2, Hf1 |].
      destruct Ht2 as [(_ & _ & Ht2)|(x & node_X & _ & _ & _ & _ & Ht2)].
      - exists fl, 0, 0. eexists. rewrite Ht2, Ht1', <- app_assoc.
        split_and!; try done. by eexists.
      - exists fl, (Z.of_nat (nrows node_X)), (Z.of_nat (ncols node_X)). eexists.
        rewrite Ht2, Ht1', <- app_assoc. split_and!; try done. by eexists. }
  destruct Ht2 as [([e ?] & _)|(x & node_X & _ & Hpp & Hfc & _ & Ht2)]; [done|].
  rewrite Ha1 in Hpp.
  rewrite bind_run.
  destruct (Run_PCA self w2) as [[[p self']|e] w3] eqn:H3;
    apply Run_PCA_run in H3 as (Ha3 & Hf3 & _ & Ht3 & _); rewrite Hn1 in Ht3.
  2:{ intros [= <- <-].
      split_and!; [by rewrite Ha3, Ha2, Ha1 | by rewrite Hf3, Hf2, Hf1 |].
      exists fl, (Z.of_nat (nrows node_X)), (Z.of_nat (ncols node_X)). eexists.
      rewrite Ht3, Ht2, Ht1', <- !app_assoc. split_and!; try done. }
  intros Hrun.
  assert (w' = w3 ∧ ∀ a, r = Ok a → obs_names a = obs_names adata ∧ obs a = obs adata)
    as [-> Hobs].
  { revert Hrun. unfold set_obsm. eff_unfold. simpl.
    repeat (case_decide; simpl); try by (intros; simplify_eq).
    destruct (add_umap "latent_GVAE" _ w3) as [[a1|e] w4] eqn:H4;
      apply add_umap_run in H4 as [-> H4]; [|by intros; simplify_eq].
    destruct (H4 _ eq_refl) as [Hn4 Ho4].
    intros H5. apply add_umap_run in H5 as [-> H5]. split; [done|].
    intros a ->. destruct (H5 _ eq_refl) as [-> ->]. by rewrite Hn4, Ho4. }
  split_and!; [by rewrite Ha3, Ha2, Ha1 | by rewrite Hf3, Hf2, Hf1 |].
  exists fl, (Z.of_nat (nrows node_X)), (Z.of_nat (ncols node_X)). eexists.
  rewrite Ht3, Ht2, Ht1', <- !app_assoc. split_and!; try done.
  intros a Ha. rewrite Ha3. split_and!; try done; try by apply Hobs.
  intros Hin. rewrite Hin in Hpp. eauto.
Qed.

Lemma select_group_names ct col (adata : AnnData) :
  sublist (obs_names (select_group ct col adata)) (obs_names adata).
Proof. apply filter_mask_sublist. Qed.

Lemma group_cells_sublist ann ct (adata : AnnData) :
  sublist (group_cells ann ct adata) (obs_names adata).
Proof.
  unfold group_cells. destruct (get_obs ann adata);
    [apply select_group_names | apply sublist_nil_l].
Qed.

Lemma assign_index_same names (p g' p' : DataFrame) :
  assign_index names SameAsPCA p = Ok (g', p') → g' = p'.
Proof.
  unfold assign_index, set_index. eff_unfold. intros. eff_cases. done.
Qed.

Lemma group_latents_run ann ct (adata : AnnData) (w : World) r w' :
  group_latents ann ct adata w = (r, w') →
  frozen (args w') = frozen (args w) ∧ files w' = files w ∧
  ∃ fl nodes width evs,
    trace w' = trace w ++ evs ∧
    evs `prefix_of`
      group_calls fl (feat_cell (args w)) (group_cells ann ct adata) nodes width ct ∧
    (Z.of_nat (length (group_cells ann ct adata)) ≤ n_comps (args w) →
     evs `prefix_of` take 2
       (group_calls fl (feat_cell (args w)) (group_cells ann ct adata) nodes width ct) ∧
     args w' = args w ∧
     ∀ g p, r = Ok (g, p) → g = p) ∧
    (∀ gp, r = Ok gp →
     take 2 (group_calls fl (feat_cell (args w)) (group_cells ann ct adata)
               nodes width ct) `prefix_of` evs).
Proof.
  unfold group_latents, group_cells. rewrite bind_run. unfold lift at 1.
  destruct (get_obs ann adata) as [col|e].
  2:{ intros [= <- <-]. split_and!; try done. exists seurat, 0, 0, [].
      rewrite app_nil_r. split_and!; try done; try apply prefix_nil.
      intros _. split_and!; try done. apply prefix_nil. }
  set (part := select_group ct col adata). rewrite bind_run.
  destruct (Latent_Representation_Finder part w) as [[self|e] w1] eqn:H1;
    apply finder_init_run in H1 as (Ha1 & Hf1 & _ & Ht1 & Hok1).
  2:{ intros [= <- <-]. split_and!; [by rewrite Ha1 | done |].
      destruct Ht1 as [Ht|[fl Ht]].
      - exists seurat, 0, 0, []. rewrite app_nil_r.
        split_and!; try done; try apply prefix_nil.
        intros _. split_and!; try done. apply prefix_nil.
      - exists fl, 0, 0, [EvHVG fl (feat_cell (args w)) (obs_names part)].
        split_and!; try done; [by eexists|].
        intros _. split_and!; try done. by eexists. }
  destruct (Hok1 _ eq_refl) as (Hn1 & fl & Ht1'). clear Ht1 Hok1.
  rewrite bind_run.
  destruct (Run_PCA self w1) as [[[pcs self']|e] w2] eqn:H2;
    apply Run_PCA_run in H2 as (Ha2 & Hf2 & _ & Ht2 & Hok2); rewrite Hn1 in Ht2.
  2:{ intros [= <- <-]. split_and!; [by rewrite Ha2, Ha1 | by rewrite Hf2, Hf1 |].
      exists fl, 0, 0. eexists. rewrite Ht2, Ht1', <- app_assoc.
      split_and!; try done; [by eexists|].
      intros _. split_and!; try done. by rewrite Ha2. }
  destruct (Hok2 _ _ eq_refl) as [Hn2 _]. clear Hok2. rewrite Hn1 in Hn2.
  rewrite bind_run. unfold get_args at 1. simpl.
  rewrite Ha2, Ha1. fold (n_obs part).
  destruct (Z.leb_spec (Z.of_nat (n_obs part)) (n_comps (args w))) as [Hle|Hgt].
  - rewrite bind_run. unfold mret, Eff_mret, Eff_ret, lift. intros [= <- <-].
    split_and!; [by rewrite Ha2, Ha1 | by rewrite Hf2, Hf1 |].
    exists fl, 0, 0. eexists. rewrite Ht2, Ht1', <- app_assoc.
    split_and!; try done; [by eexists|].
    intros _. split_and!; try done; [by rewrite Ha2|].
    intros g p Hg. eapply assign_index_same. exact Hg.
  - rewrite !bind_run.
    destruct (Run_GNN_VAE self' None ct w2) as [[m|e] w3] eqn:H3;
      apply Run_GNN_VAE_run in H3 as (Ha3 & Hf3 & _ & Ht3); rewrite Hn2 in Ht3.
    + destruct Ht3 as [([e ?] & _)|(x & node_X & _ & _ & _ & _ & Ht3)]; [done|].
      unfold mret, Eff_mret, Eff_ret, lift. intros [= <- <-].
      split_and!; [by rewrite Ha3, Ha2, Ha1 | by rewrite Hf3, Hf2, Hf1 |].
      exists fl, (Z.of_nat (nrows node_X)), (Z.of_nat (ncols node_X)). eexists.
      rewrite Ht3, Ht2, Ht1', <- !app_assoc. split_and!; try done.
      * intros Hsm. exfalso. revert Hsm Hgt.
        unfold n_obs, part, select_group. simpl. lia.
      * intros _ _. by eexists.
    + intros [= <- <-].
      split_and!; [by rewrite Ha3, Ha2, Ha1 | by rewrite Hf3, Hf2, Hf1 |].
      destruct Ht3 as [(_ & _ & Ht3)|(x & node_X & _ & _ & _ & _ & Ht3)].
      * exists fl, 0, 0. eexists. rewrite Ht3, Ht2, Ht1', <- !app_assoc.
        split_and!; try done; [by eexists|]. intros Hsm. exfalso. revert Hsm Hgt. unfold n_obs, part, select_group. simpl. lia.
      * exists fl, (Z.of_nat (nrows node_X)), (Z.of_nat (ncols node_X)). eexists.
        rewrite Ht3, Ht2, Ht1', <- !app_assoc. split_and!; try done.
        intros Hsm. exfalso. revert Hsm Hgt. unfold n_obs, part, select_group. simpl. lia.
Qed.

Lemma hier_step_run nf ann ct (st : LoopState) (w : World) r w' :
  hier_step nf ann ct st w = (r, w') →
  frozen (args w') = frozen (args w) ∧ files w' = files w ∧
  ∃ fl nodes width evs,
    trace w' = trace w ++ evs ∧
    evs `prefix_of`
      group_calls fl (feat_cell (args w)) (group_cells ann ct (loop_adata st))
        nodes width ct ∧
    (Z.of_nat (length (group_cells ann ct (loop_adata st))) ≤ n_comps (args w) →
     evs `prefix_of` take 2
       (group_calls fl (feat_cell (args w)) (group_cells ann ct (loop_adata st))
          nodes width ct) ∧
     ∀ st', r = Ok st' → GVAE_all st = PCA_all st →
       GVAE_all st' = PCA_all st' ∧
       ∃ m, obsm (loop_adata st') !! "latent_GVAE_hierarchy" = Some m ∧
            obsm (loop_adata st') !! "latent_PCA_hierarchy" = Some m) ∧
    ∀ st', r = Ok st' →
      take 2 (group_calls fl (feat_cell (args w)) (group_cells ann ct (loop_adata st))
                nodes width ct) `prefix_of` evs ∧
      feat_cell (args w') = nf ∧
      obs_names (loop_adata st') = obs_names (loop_adata st) ∧
      obs (loop_adata st') = obs (loop_adata st).
Proof.
  unfold hier_step. rewrite bind_run.
  destruct (group_latents ann ct (loop_adata st) w) as [[[g p]|e] w1] eqn:H1;
    apply group_latents_run in H1
      as (Ha1 & Hf1 & fl & nodes & width & evs & Ht1 & Hpre & Hsmall & Hfull).
  2:{ intros [= <- <-]. split_and!; try done. exists fl, nodes, width, evs.
      split_and!; try done. intros Hle. by destruct (Hsmall Hle) as [? _]. }
  intros Hrun.
  assert (files w' = files w1 ∧ trace w' = trace w1 ∧
          frozen (args w') = frozen (args w1) ∧
          ∀ st', r = Ok st' →
            feat_cell (args w') = nf ∧
            obs_names (loop_adata st') = obs_names (loop_adata st) ∧
            obs (loop_adata st') = obs (loop_adata st) ∧
            GVAE_all st' = concat (GVAE_all st) g ∧
            PCA_all st' = concat (PCA_all st) p ∧
            ∃ mg mp,
              loc (map Name (obs_names (loop_adata st))) (GVAE_all st') = Ok mg ∧
              loc (map Name (obs_names (loop_adata st))) (PCA_all st') = Ok mp ∧
              obsm (loop_adata st') !! "latent_GVAE_hierarchy" = Some mg ∧
              obsm (loop_adata st') !! "latent_PCA_hierarchy" = Some mp)
    as (Hf2 & Ht2 & Ha2 & Hok).
  { revert Hrun. unfold set_obsm. eff_unfold. destruct w1 as [P fs ds tr]. simpl.
    destruct (loc _ (concat (GVAE_all st) g)) as [mg|] eqn:Hg; simpl;
      [|by intros [= <- <-]].
    case_decide; simpl; [|by intros [= <- <-]].
    destruct (loc _ (concat (PCA_all st) p)) as [mp|] eqn:Hp; simpl;
      [|by intros [= <- <-]].
    case_decide; simpl; [|by intros [= <- <-]].
    intros [= <- <-]. simpl. split_and!; try done.
    intros st' [= <-]. simpl. split_and!; try done.
    exists mg, mp. split_and!; try done.
    rewrite lookup_insert_ne by done. by rewrite lookup_insert_eq.
    by rewrite lookup_insert_eq. }
  split_and!; [by rewrite Ha2 | by rewrite Hf2 |].
  exists fl, nodes, width, evs. rewrite Ht2. split_and!; try done.
  - intros Hle. destruct (Hsmall Hle) as (Hpre2 & _ & Hgp). split; [done|].
    intros st' Hst' Heq. destruct (Hok _ Hst')
      as (_ & _ & _ & HG & HP & mg & mp & Hlg & Hlp & Hog & Hop).
    rewrite (Hgp _ _ eq_refl) in HG.
    assert (GVAE_all st' = PCA_all st') as Hsame by (by rewrite HG, HP, Heq).
    split; [done|]. exists mg. split; [done|].
    rewrite Hop. f_equal. rewrite Hsame in Hlg. congruence.
  - intros st' Hst'. destruct (Hok _ Hst') as (? & ? & ? & _).
    split_and!; try done. by eapply Hfull.
Qed.

(** What a prefix of the calls of one round can contain. *)
Lemma group_calls_prefix evs fl top cells nodes width ct :
  evs `prefix_of` group_calls fl top cells nodes width ct →
  Forall (λ e, event_cells e = cells) evs ∧
  Forall (λ e, ∀ l, train_label e = Some l → l = None) evs ∧
  (omap hvg_top evs = [] ∨ omap hvg_top evs = [top]) ∧
  Forall (λ e, is_write e = false) evs.
Proof.
  intros [k Hk]. unfold group_calls in Hk.
  destruct evs as [|? [|? [|? [|? [|? ?]]]]]; simplify_eq/=; split_and!;
    first [ by eauto
          | by repeat (constructor; [by (simpl; intros; simplify_eq)|]);
               constructor ].
Qed.

Lemma whole_calls_prefix evs fl top cells nodes width label :
  evs `prefix_of` whole_calls fl top cells nodes width label →
  Forall (λ e, event_cells e = cells) evs ∧
  Forall (λ e, is_pca e = true → evs = whole_calls fl top cells nodes width label) evs ∧
  (omap hvg_top evs = [] ∨ omap hvg_top evs = [top]) ∧
  (omap train_label evs = [] ∨ omap train_label evs = [label]) ∧
  Forall (λ e, is_write e = false) evs.
Proof.
  intros [k Hk]. unfold whole_calls in Hk.
  destruct evs as [|? [|? [|? [|? [|? ?]]]]]; simplify_eq/=; split_and!;
    first [ by eauto
          | by repeat (constructor; [by (simpl; intros; simplify_eq)|]);
               constructor ].
Qed.

Lemma hier_loop_run nf ann cts (st : LoopState) (w : World) r w' :
  hier_loop nf ann cts st w = (r, w') →
  frozen (args w') = frozen (args w) ∧ files w' = files w ∧
  (∀ st', r = Ok st' →
     obs_names (loop_adata st') = obs_names (loop_adata st) ∧
     obs (loop_adata st') = obs (loop_adata st)) ∧
  ∃ evs,
    trace w' = trace w ++ evs ∧
    Forall (λ e, sublist (event_cells e) (obs_names (loop_adata st))) evs ∧
    Forall (λ e, ∀ l, train_label e = Some l → l = None) evs ∧
    tops_reset (feat_cell (args w)) nf (omap hvg_top evs) ∧
    Forall (λ e, is_write e = false) evs.
Proof.
  revert st w. induction cts as [|ct cts IH]; intros st w; simpl.
  - intros [= <- <-]. split_and!; try done. { by intros ? [= <-]. }
    exists []. rewrite app_nil_r. split_and!; by try constructor.
  - rewrite bind_run.
    destruct (hier_step nf ann ct st w) as [[st1|e] w1] eqn:H1;
      apply hier_step_run in H1
        as (Ha1 & Hf1 & fl & nodes & width & evs1 & Ht1 & Hpre & _ & Hok).
    2:{ intros [= <- <-]. split_and!; try done. exists evs1.
        apply group_calls_prefix in Hpre as (Hc & Hl & Htops & Hnw).
        split_and!; try done.
        - eapply Forall_impl; [exact Hc|]. intros ? ->. apply group_cells_sublist.
        - destruct Htops as [->| ->]; simpl; auto. }
    destruct (Hok _ eq_refl) as ([k Hk] & Hfc & Hn1 & Ho1). clear Hok.
    intros Hrun. apply IH in Hrun
      as (Ha2 & Hf2 & Hst2 & evs2 & Ht2 & Hc2 & Hl2 & Htops2 & Hnw2).
    split_and!; [by rewrite Ha2 | by rewrite Hf2 | |].
    { intros st' Hst'. destruct (Hst2 _ Hst') as [-> ->]. done. }
    exists (evs1 ++ evs2). rewrite Ht2, Ht1, <- app_assoc.
    apply group_calls_prefix in Hpre as (Hc & Hl & Htops & Hnw).
    split_and!; try done.
    4: by apply Forall_app.
    + apply Forall_app. split.
      * eapply Forall_impl; [exact Hc|]. intros ? ->. apply group_cells_sublist.
      * by rewrite <- Hn1.
    + by apply Forall_app.
    + rewrite omap_app. rewrite Hk in Htops. simpl in Htops.
      destruct Htops as [?| Htops]; [done|].
      rewrite Hk. simpl in *. rewrite Hfc in Htops2.
      injection Htops as ->. simpl. split; [done|].
      destruct (omap hvg_top evs2) as [|t rest]; [done|].
      destruct Htops2 as [-> ?]. by constructor.
Qed.

Lemma hierarchy_run nf (adata : AnnData) (w : World) r w' :
  hierarchy nf adata w = (r, w') →
  frozen (args w') = frozen (args w) ∧ files w' = files w ∧
  (∀ a, r = Ok a → obs_names a = obs_names adata ∧ obs a = obs adata) ∧
  ∃ evs,
    trace w' = trace w ++ evs ∧
    Forall (λ e, sublist (event_cells e) (obs_names adata)) evs ∧
    Forall (λ e, ∀ l, train_label e = Some l → l = None) evs ∧
    tops_reset (feat_cell (args w)) nf (omap hvg_top evs) ∧
    Forall (λ e, is_write e = false) evs.
Proof.
  assert (∀ a, (Ok a, w) = (r, w') →
    frozen (args w') = frozen (args w) ∧ files w' = files w ∧
    (∀ a', r = Ok a' → a' = a) ∧
    ∃ evs, trace w' = trace w ++ evs ∧
      Forall (λ e, sublist (event_cells e) (obs_names adata)) evs ∧
      Forall (λ e, ∀ l, train_label e = Some l → l = None) evs ∧
      tops_reset (feat_cell (args w)) nf (omap hvg_top evs) ∧
      Forall (λ e, is_write e = false) evs) as Hskip.
  { intros a [= <- <-]. split_and!; try done. { by intros ? [= <-]. }
    exists []. rewrite app_nil_r. split_and!; by try constructor. }
  unfold hierarchy. rewrite bind_run. unfold get_args at 1.
  destruct (annotation (args w)) as [ann|].
  2:{ intros Hr. destruct (Hskip _ Hr) as (? & ? & Heq & ?). split_and!; try done.
      by intros a ->%Heq. }
  destruct (hierarchically (args w)).
  2:{ intros Hr. destruct (Hskip _ Hr) as (? & ? & Heq & ?). split_and!; try done.
      by intros a ->%Heq. }
  clear Hskip. rewrite bind_run. unfold lift at 1.
  destruct (get_obs ann adata) as [col|e].
  2:{ intros [= <- <-]. split_and!; try done.
      exists []. rewrite app_nil_r. split_and!; by try constructor. }
  rewrite bind_run.
  match goal with |- context [hier_loop nf ann ?cts ?st w] =>
    destruct (hier_loop nf ann cts st w) as [[st'|e] w1] eqn:Hloop end;
    apply hier_loop_run in Hloop
      as (Ha & Hf & Hst & evs & Ht & Hc & Hl & Htops & Hnw);
    simpl in *; intros [= <- <-]; split_and!; try done; eauto 10.
  intros a [= <-]. by apply Hst.
Qed.

Lemma compute_run (w : World) r w' :
  compute w = (r, w') →
  files w' = files w ∧ frozen (args w') = frozen (args w) ∧
  ((∃ e, r = Raise e ∧ setup w = (Raise e, w'))
   ∨
   ∃ adata label w1 fl nodes width evs1 evs2,
     setup w = (Ok (adata, label), w1) ∧
     trace w' = trace w ++ evs1 ++ evs2 ∧
     evs1 `prefix_of`
       whole_calls fl (feat_cell (args w)) (obs_names adata) nodes width label ∧
     (evs2 ≠ [] ∨ (∃ a, r = Ok a) →
      evs1 = whole_calls fl (feat_cell (args w)) (obs_names adata) nodes width label ∧
      (input_pca (args w) = true →
       ∃ x node_X, pp_pca x (n_comps (args w)) = Ok node_X ∧
                   width = Z.of_nat (ncols node_X))) ∧
     Forall (λ e, sublist (event_cells e) (obs_names adata)) evs2 ∧
     Forall (λ e, ∀ l, train_label e = Some l → l = None) evs2 ∧
     tops_reset width (feat_cell (args w)) (omap hvg_top evs2) ∧
     Forall (λ e, is_write e = false) evs2).
Proof.
  unfold compute. rewrite bind_run. unfold get_args at 1. rewrite bind_run.
  destruct (setup w) as [[[adata label]|e] w1] eqn:H1;
    pose proof H1 as H1'; apply setup_run in H1' as (Ha1 & Hfc1 & Hf1 & Ht1).
  2:{ intros [= <- <-]. split_and!; try done. left. eauto. }
  assert (input_pca (args w1) = input_pca (args w) ∧
          n_comps (args w1) = n_comps (args w)) as [Hip Hnc].
  { split; [apply (f_equal input_pca) in Ha1 | apply (f_equal n_comps) in Ha1]; done. }
  rewrite bind_run.
  destruct (whole_latents adata label w1) as [[a|e] w2] eqn:H2;
    apply whole_latents_run in H2
      as (Ha2 & Hf2 & fl & nodes & width & evs1 & Ht2 & Hpre & Hok);
    rewrite Hfc1 in Hpre.
  2:{ intros [= <- <-]. split_and!; [by rewrite Hf2 | by rewrite Ha2|].
      right. exists adata, label, w1, fl, nodes, width, evs1, [].
      rewrite app_nil_r, Ht2, Ht1. split_and!; try done; try by constructor.
      intros [?|[? ?]]; done. }
  destruct (Hok _ eq_refl) as (Hfull & Hw & Hpp & Hn & Ho). clear Hok.
  rewrite Hfc1 in Hfull. rewrite Hip, Hnc in Hpp.
  intros Hrun. apply hierarchy_run in Hrun
    as (Ha3 & Hf3 & _ & evs2 & Ht3 & Hc3 & Hl3 & Htops3 & Hnw3).
  split_and!; [by rewrite Hf3, Hf2 | by rewrite Ha3, Ha2 |].
  right. exists adata, label, w1, fl, nodes, width, evs1, evs2.
  rewrite Ht3, Ht2, Ht1, <- app_assoc. rewrite Hn in Hc3. rewrite Hw in Htops3.
  split_and!; done.
Qed.

Lemma compute_stages (w : World) r w' :
  compute w = (r, w') →
  (∃ e, r = Raise e ∧ setup w = (Raise e, w')) ∨
  (∃ adata label w1 e,
     r = Raise e ∧ setup w = (Ok (adata, label), w1) ∧
     whole_latents adata label w1 = (Raise e, w')) ∨
  (∃ adata label w1 a w2,
     setup w = (Ok (adata, label), w1) ∧
     whole_latents adata label w1 = (Ok a, w2) ∧
     hierarchy (feat_cell (args w)) a w2 = (r, w')).
Proof.
  unfold compute. rewrite bind_run. unfold get_args at 1. rewrite bind_run.
  destruct (setup w) as [[[adata label]|e] w1]; [|intros [= <- <-]; eauto].
  rewrite bind_run.
  destruct (whole_latents adata label w1) as [[a|e] w2] eqn:H2.
  - intros Hh. right. right. eauto 10.
  - intros [= <- <-]. right. left. eauto 10.
Qed.

Lemma run_stages (w : World) r w' :
  run_find_latent_representation w = (r, w') →
  (∃ e, r = Raise e ∧ compute w = (Raise e, w')) ∨
  (∃ adata w1, compute w = (Ok adata, w1) ∧
               write adata (output_hdf5_path (args w1)) w1 = (r, w')).
Proof.
  unfold run_find_latent_representation. rewrite bind_run.
  destruct (compute w) as [[adata|e] w1]; [|intros [= <- <-]; eauto].
  rewrite bind_run. unfold get_args at 1. eauto.
Qed.

(** ** The data-type tag *)

(** C8 (the code departs from the claim).  The claim is that [type] may be
    left unset.  In the code, both branches of the finder's constructor
    read [adata.layers[Params.type]]; when [type] is [None] that lookup
    raises [KeyError], so every run whose dataset loads stops at the first
    finder, in the world as [setup] left it: nothing has been selected,
    trained or written. *)
Theorem type_unset_raises (w : World) adata label w1 :
  type (args w) = None →
  setup w = (Ok (adata, label), w1) →
  (∀ a, Latent_Representation_Finder a w1 = (Raise (KeyError "None"), w1)) ∧
  run_find_latent_representation w = (Raise (KeyError "None"), w1).
Proof.
  intros Hty Hsetup.
  assert (type (args w1) = None) as Hty1.
  { apply setup_run in Hsetup as (Ha & _). apply (f_equal type) in Ha.
    simpl in Ha. congruence. }
  assert (∀ a, Latent_Representation_Finder a w1 = (Raise (KeyError "None"), w1))
    as Hinit.
  { intros a. unfold Latent_Representation_Finder. eff_unfold. rewrite Hty1.
    rewrite bool_decide_false by (intros [?|?]; done). done. }
  split; [done|].
  unfold run_find_latent_representation, compute. rewrite !bind_run.
  unfold get_args at 1. rewrite bind_run, Hsetup.
  unfold whole_latents. rewrite !bind_run, Hinit. done.
Qed.

(** ** Principal components *)

(** C4, as amended.  [Run_PCA] returns the leading columns of the matrix
    that [sc.tl.pca] produced with its own default number of components:
    for a non-negative [n_comps] the result has [min n_comps width]
    columns, hence exactly [n_comps] only when the decomposition has at
    least that many. *)
Theorem Run_PCA_columns (self : Finder) (w : World) m self' w' :
  Run_PCA self w = (Ok (m, self'), w') →
  ∃ pcs,
    tl_pca (self_adata self) = Ok pcs ∧
    m = slice_cols (n_comps (args w)) pcs ∧
    nrows m = nrows pcs ∧
    (0 ≤ n_comps (args w) →
     Z.of_nat (ncols m) = Z.min (n_comps (args w)) (Z.of_nat (ncols pcs))) ∧
    (rectangular pcs → rectangular m).
Proof.
  intros Hrun. apply Run_PCA_run in Hrun as (_ & _ & _ & _ & Hok).
  destruct (Hok _ _ eq_refl) as (_ & pcs & Hpcs & ->).
  exists pcs. split_and!; try done.
  - unfold nrows. simpl. by rewrite length_map.
  - intros Hpos. simpl. unfold py_slice0_len.
    destruct (Z.ltb_spec (n_comps (args w)) 0); lia.
  - unfold rectangular. simpl. intros Hrect. apply Forall_map.
    eapply Forall_impl; [exact Hrect|]. simpl. intros row Hlen.
    by rewrite py_slice0_length, Hlen.
Qed.

(** ** Failure of the GNN-VAE *)

(** C3, as amended.  The two embeddings are computed one after the other
    with no handler in between: when [Run_GNN_VAE] raises on the whole
    dataset, the same exception ends the run in the world reached at that
    point.  [sc.tl.pca] has not been called and no file has changed. *)
Theorem gvae_failure_ends_run (w : World) adata label w1 self w2 e w3 :
  setup w = (Ok (adata, label), w1) →
  Latent_Representation_Finder adata w1 = (Ok self, w2) →
  Run_GNN_VAE self label (Str "whole ST data") w2 = (Raise e, w3) →
  run_find_latent_representation w = (Raise e, w3) ∧
  files w3 = files w ∧
  ∃ evs, trace w3 = trace w ++ evs ∧ Forall (λ ev, is_pca ev = false) evs.
Proof.
  intros Hsetup Hinit Hgvae.
  split_and!.
  - unfold run_find_latent_representation, compute. rewrite !bind_run.
    unfold get_args at 1. rewrite bind_run, Hsetup.
    unfold whole_latents. rewrite !bind_run, Hinit. cbv beta iota.
    rewrite !bind_run, Hgvae. done.
  - apply setup_run in Hsetup as (_ & _ & Hf1 & _).
    apply finder_init_run in Hinit as (_ & Hf2 & _).
    apply Run_GNN_VAE_run in Hgvae as (_ & Hf3 & _). congruence.
  - apply setup_run in Hsetup as (_ & _ & _ & Ht1).
    apply finder_init_run in Hinit as (_ & _ & _ & _ & Hok).
    destruct (Hok _ eq_refl) as (_ & fl & Ht2).
    apply Run_GNN_VAE_run in Hgvae as (_ & _ & _ & [(_ & _ & Ht3)|Ht3]).
    + eexists. rewrite Ht3, Ht2, Ht1, <- app_assoc. split; [done|].
      by repeat constructor.
    + destruct Ht3 as (x & node_X & _ & _ & _ & _ & Ht3).
      eexists. rewrite Ht3, Ht2, Ht1, <- app_assoc. split; [done|].
      by repeat constructor.
Qed.

(** ** The output file *)

(** C7, as amended.  The dataset is written by one call, made last and
    given the configured output path itself; there is no temporary path
    and no rename.  A run that raises before that call leaves every file
    as it was; a run that reaches it leaves the files as the writer left
    them, whether the writer returned or raised. *)
Theorem output_written_in_place (w : World) r w' :
  run_find_latent_representation w = (r, w') →
  (∃ e, r = Raise e ∧ files w' = files w ∧
        Forall (λ ev, ∀ p, ev ≠ EvWrite p) (drop (length (trace w)) (trace w')))
  ∨
  (∃ adata w1,
     compute w = (Ok adata, w1) ∧
     write_h5ad adata (output_hdf5_path (args w)) (files w) = (r, files w') ∧
     trace w' = trace w1 ++ [EvWrite (output_hdf5_path (args w))]).
Proof.
  intros Hrun. apply run_stages in Hrun as [(e & -> & Hc)|(adata & w1 & Hc & Hw)].
  - left. exists e. pose proof Hc as Hc'.
    apply compute_run in Hc as (Hf & _ & Hev). split_and!; try done.
    assert (∃ evs, trace w' = trace w ++ evs ∧ Forall (λ ev, is_write ev = false) evs)
      as (evs & -> & Hall).
    { destruct Hev as [(e' & _ & Hs)|Hev].
      - apply setup_run in Hs as (_ & _ & _ & ->). exists [].
        by rewrite app_nil_r.
      - destruct Hev as (a & l & w1 & fl & n & wd & evs1 & evs2 & _ & -> & Hpre
                         & _ & _ & _ & _ & Hnw2).
        exists (evs1 ++ evs2). split; [done|]. apply Forall_app. split; [|done].
        by apply whole_calls_prefix in Hpre as (_ & _ & _ & _ & ?). }
    rewrite drop_app_length. eapply Forall_impl; [exact Hall|].
    intros ev Hnw p ->. done.
  - right. exists adata, w1. pose proof Hc as Hc'.
    apply compute_run in Hc as (Hf & Ha & _).
    assert (output_hdf5_path (args w1) = output_hdf5_path (args w)) as Hp.
    { apply (f_equal output_hdf5_path) in Ha. done. }
    rewrite Hp in Hw. unfold write in Hw. rewrite Hf in Hw.
    destruct (write_h5ad adata (output_hdf5_path (args w)) (files w)) as [r0 fs].
    simplify_eq/=. done.
Qed.

(** ** The annotation filter *)

Lemma filter_mask_twice {A : Type} (f g : ObsValue → bool) col (l : list A) :
  filter_mask (map g (filter_mask (map f col) col)) (filter_mask (map f col) l)
  = filter_mask (map (λ v, f v && g v) col) l.
Proof.
  revert l. induction col as [|v col IH]; intros [|x l]; simpl; try done.
  - destruct (f v); simpl; [done|]. by destruct (map g _).
  - destruct (f v); simpl; [destruct (g v)|]; by rewrite IH.
Qed.

Lemma filter_mask_ext {A : Type} (f g : ObsValue → bool) col (l : list A) :
  (∀ v, v ∈ col → f v = g v) →
  filter_mask (map f col) l = filter_mask (map g col) l.
Proof.
  revert l. induction col as [|v col IH]; intros l Hfg; [done|].
  destruct l as [|x l]; simpl; [done|].
  rewrite (Hfg v) by apply list_elem_of_here.
  rewrite IH; [done|]. intros v' Hv'. apply Hfg. by apply list_elem_of_further.
Qed.

Lemma elem_of_unique v col : v ∈ unique col ↔ v ∈ col.
Proof.
  induction col as [|x col IH]; simpl; [done|].
  rewrite !elem_of_cons, list_elem_of_filter, IH.
  destruct (decide (v = x)); [by split; left | tauto].
Qed.

Lemma value_count_notnull v col :
  v ≠ Null →
  value_count v (filter (λ x, negb (isnull x) = true) col) = value_count v col.
Proof.
  intros Hv. unfold value_count. induction col as [|x col IH]; [done|].
  rewrite !filter_cons. destruct (decide (x = v)) as [->|Hne].
  - rewrite decide_True by (by destruct v). rewrite filter_cons, decide_True by done.
    simpl. by rewrite IH.
  - case_decide; [|done]. by rewrite filter_cons, decide_False.
Qed.

Lemma subset_obs_twice (adata : AnnData) (f g : ObsValue → bool) col :
  subset_obs (map g (filter_mask (map f col) col)) (subset_obs (map f col) adata)
  = subset_obs (map (λ v, f v && g v) col) adata.
Proof.
  unfold subset_obs, select_rows. simpl. f_equal.
  - apply filter_mask_twice.
  - f_equal. apply filter_mask_twice.
  - rewrite <- map_fmap_compose. apply map_fmap_ext. intros ? m _. simpl.
    f_equal. apply filter_mask_twice.
  - rewrite <- map_fmap_compose. apply map_fmap_ext. intros ? m _. simpl.
    apply filter_mask_twice.
  - rewrite <- map_fmap_compose. apply map_fmap_ext. intros ? m _. simpl.
    f_equal. apply filter_mask_twice.
Qed.

Lemma get_obs_subset ann mask (adata : AnnData) col :
  get_obs ann adata = Ok col →
  get_obs ann (subset_obs mask adata) = Ok (filter_mask mask col).
Proof.
  unfold get_obs. simpl. rewrite lookup_fmap.
  destruct (obs adata !! ann); intros; by simplify_eq/=.
Qed.

(** The two selections of lines 144 and 146 keep exactly the retained cells. *)
Lemma two_selections (adata : AnnData) col :
  let col1 := filter_mask (map (λ v, negb (isnull v)) col) col in
  let kept := filter (λ v, (30 ≤ value_count v col1)%nat) (unique col1) in
  subset_obs (map (λ v, bool_decide (v ∈ kept)) col1)
    (subset_obs (map (λ v, negb (isnull v)) col) adata)
  = retained_cells col adata ∧
  filter_mask (map (λ v, bool_decide (v ∈ kept)) col1) col1 = filter (retained col) col.
Proof.
  intros col1 kept.
  assert (∀ v, v ∈ col →
    negb (isnull v) && bool_decide (v ∈ kept) = bool_decide (retained col v)) as Hmask.
  { intros v Hv. unfold kept, retained, col1.
    rewrite filter_mask_self. destruct (decide (v = Null)) as [->|Hnn].
    - symmetry. rewrite andb_false_l. apply bool_decide_eq_false_2. by intros [? _].
    - replace (negb (isnull v)) with true by (by destruct v). simpl.
      apply bool_decide_ext. rewrite list_elem_of_filter, elem_of_unique.
      rewrite list_elem_of_filter, value_count_notnull by done.
      split; [by intros (? & _ & _)|].
      intros [_ ?]. split_and!; try done. by destruct v. }
  split.
  - unfold col1, retained_cells. rewrite subset_obs_twice.
    unfold subset_obs, select_rows. simpl. f_equal.
    + by apply filter_mask_ext.
    + f_equal. by apply filter_mask_ext.
    + apply map_fmap_ext. intros ? m _. simpl. f_equal. by apply filter_mask_ext.
    + apply map_fmap_ext. intros ? m _. simpl. by apply filter_mask_ext.
    + apply map_fmap_ext. intros ? m _. simpl. f_equal. by apply filter_mask_ext.
  - unfold col1. rewrite filter_mask_twice.
    rewrite (filter_mask_ext _ (λ v, bool_decide (retained col v))) by done.
    rewrite filter_mask_self. apply list_filter_iff. intros v.
    by rewrite bool_decide_eq_true.
Qed.

Lemma load_labels_filter (adata : AnnData) (w : World) ann col :
  annotation (args w) = Some ann →
  get_obs ann adata = Ok col →
  load_labels adata w =
    (match LabelEncoder (filter (retained col) col) with
     | Ok codes =>
         if decide (length codes = n_obs (retained_cells col adata))
         then Ok (set_obs "categorical_label" (map Int codes) (retained_cells col adata),
                  Some codes)
         else Raise (ValueError "Length of values does not match length of index")
     | Raise e => Raise e
     end, w).
Proof.
  intros Hann Hcol. unfold load_labels. rewrite bind_run. unfold get_args at 1.
  rewrite Hann. rewrite bind_run. unfold lift at 1. rewrite Hcol. cbv beta iota.
  set (col1 := filter_mask (map (λ v, negb (isnull v)) col) col).
  pose proof (get_obs_subset ann (map (λ v, negb (isnull v)) col) _ _ Hcol) as Hcol1.
  fold col1 in Hcol1.
  rewrite bind_run. unfold lift at 1. rewrite Hcol1. cbv beta iota.
  rewrite bind_run. unfold lift at 1. cbv beta iota.
  set (kept := filter (λ v, (30 ≤ value_count v col1)%nat) (unique col1)).
  pose proof (get_obs_subset ann (map (λ v, bool_decide (v ∈ kept)) col1) _ _ Hcol1)
    as Hcol2.
  rewrite bind_run. unfold lift at 1. rewrite Hcol2. cbv beta iota.
  destruct (two_selections adata col) as [Hsel Hfil].
  fold col1 kept in Hsel, Hfil. rewrite Hsel, Hfil.
  rewrite bind_run. unfold lift at 1.
  destruct (LabelEncoder _) as [codes|e]; [|done].
  by case_decide.
Qed.

Lemma retained_cells_names col (adata : AnnData) :
  obs_names (retained_cells col adata)
  = (filter (λ p, retained col p.1) (zip col (obs_names adata))).*2.
Proof.
  unfold retained_cells. simpl. rewrite filter_mask_map. f_equal.
  apply list_filter_iff. intros p. by rewrite bool_decide_eq_true.
Qed.

Lemma setup_filter (w : World) raw ann col r w1 :
  annotation (args w) = Some ann →
  files w !! input_hdf5_path (args w) = Some (Dataset raw) →
  get_obs ann raw = Ok col →
  setup w = (r, w1) →
  (∃ e, r = Raise e ∧
        mkdir (path_parent (output_hdf5_path (args w))) (dirs w) = Raise e) ∨
  (∃ e, r = Raise e ∧ LabelEncoder (filter (retained col) col) = Raise e) ∨
  (∃ e codes, r = Raise e ∧ LabelEncoder (filter (retained col) col) = Ok codes ∧
     length codes ≠
     length (filter (λ p, retained col p.1) (zip col (obs_names raw)))) ∨
  (∃ adata label, r = Ok (adata, label) ∧
     obs_names adata = (filter (λ p, retained col p.1) (zip col (obs_names raw))).*2).
Proof.
  intros Hann Hfile Hcol. unfold setup, load, make_dirs. rewrite bind_run.
  unfold get_args at 1. rewrite bind_run. unfold modify_args at 1.
  rewrite bind_run. simpl.
  destruct (mkdir _ _) as [ds|e]; [|intros [= <- <-]; left; eauto].
  rewrite bind_run. unfold get_args at 1. rewrite bind_run.
  unfold read_h5ad at 1. simpl. rewrite Hfile.
  erewrite load_labels_filter; [|by simpl|exact Hcol].
  set (adata := set_var_names _ raw).
  assert (n_obs (retained_cells col adata)
          = length (filter (λ p, retained col p.1) (zip col (obs_names raw)))) as ->.
  { unfold n_obs. by rewrite retained_cells_names, length_fmap. }
  intros Hr. right. destruct (LabelEncoder _) as [codes|e].
  - case_decide; simplify_eq.
    + do 2 right. eexists _, _. split; [done|].
      exact (retained_cells_names col adata).
    + right. left. eexists _, codes. eauto.
  - simplify_eq. left. eauto.
Qed.

(** C5.  With an annotation column given, every call the run ever makes -
    gene selection, neighbour graph, training, PCA - is made on cells that
    passed the filter: their annotation is not null and is shared by at
    least thirty cells.  The filter itself never raises: once the input
    is read, [setup] can only fail in [mkdir] or in the label encoder. *)
Theorem undersized_groups_filtered (w : World) raw ann col r w' :
  annotation (args w) = Some ann →
  files w !! input_hdf5_path (args w) = Some (Dataset raw) →
  get_obs ann raw = Ok col →
  compute w = (r, w') →
  let kept := filter (λ p, retained col p.1) (zip col (obs_names raw)) in
  Forall (λ p, p.1 ≠ Null ∧ (30 ≤ value_count p.1 col)%nat) kept ∧
  (∃ evs, trace w' = trace w ++ evs ∧
          Forall (λ e, sublist (event_cells e) kept.*2) evs) ∧
  (∀ e w1, setup w = (Raise e, w1) →
     mkdir (path_parent (output_hdf5_path (args w))) (dirs w) = Raise e ∨
     LabelEncoder (filter (retained col) col) = Raise e ∨
     ∃ codes, LabelEncoder (filter (retained col) col) = Ok codes ∧
              length codes ≠ length kept).
Proof.
  intros Hann Hfile Hcol Hrun kept. split_and!.
  - apply Forall_forall. intros p Hp. by apply list_elem_of_filter in Hp as [? _].
  - apply compute_run in Hrun as (_ & _ & [(e & -> & Hs)|Hev]).
    + apply setup_run in Hs as (_ & _ & _ & ->). exists [].
      by rewrite app_nil_r.
    + destruct Hev as (a & l & w1 & fl & n & wd & evs1 & evs2 & Hs & -> & Hpre
                       & _ & Hc2 & _).
      destruct (setup_filter _ _ _ _ _ _ Hann Hfile Hcol Hs)
        as [(? & ? & _)|[(? & ? & _)|[(? & ? & ? & _)|(? & ? & Heq & Hn)]]];
        try done.
      injection Heq as <- <-. fold kept in Hn. rewrite Hn in *.
      exists (evs1 ++ evs2). split; [done|]. apply Forall_app. split; [|done].
      apply whole_calls_prefix in Hpre as (Hc1 & _).
      eapply Forall_impl; [exact Hc1|]. by intros ? ->.
  - intros e w1 Hs.
    destruct (setup_filter _ _ _ _ _ _ Hann Hfile Hcol Hs)
      as [(? & ? & ?)|[(? & ? & ?)|[(? & codes & ? & ? & ?)|(? & ? & ? & _)]]];
      simplify_eq; eauto.
Qed.

(** ** The hierarchical loop *)

(** C2.  In a round whose group has at most [n_comps] cells, the frame
    bound to [latent_GVAE_part] is the frame bound to [latent_PCA_part];
    the round calls neither the graph builder nor the trainer; and as long
    as the two accumulated frames agree before the round, they agree after
    it and the two matrices attached to the dataset are the same. *)
Theorem small_group_takes_pca nf ann ct (st : LoopState) (w : World) r w' :
  hier_step nf ann ct st w = (r, w') →
  Z.of_nat (length (group_cells ann ct (loop_adata st))) ≤ n_comps (args w) →
  (∀ g p w1, group_latents ann ct (loop_adata st) w = (Ok (g, p), w1) → g = p) ∧
  (∃ evs, trace w' = trace w ++ evs ∧ Forall (λ e, is_train e = false) evs) ∧
  (∀ st', r = Ok st' → GVAE_all st = PCA_all st →
     GVAE_all st' = PCA_all st' ∧
     ∃ m, obsm (loop_adata st') !! "latent_GVAE_hierarchy" = Some m ∧
          obsm (loop_adata st') !! "latent_PCA_hierarchy" = Some m).
Proof.
  intros Hstep Hsmall. split_and!.
  - intros g p w1 Hg.
    apply group_latents_run in Hg as (_ & _ & ? & ? & ? & ? & _ & _ & Hs & _).
    destruct (Hs Hsmall) as (_ & _ & Hgp). by apply Hgp.
  - apply hier_step_run in Hstep
      as (_ & _ & fl & nodes & width & evs & Ht & _ & Hs & _).
    destruct (Hs Hsmall) as [[k Hk] _]. exists evs. split; [done|].
    simpl in Hk. destruct evs as [|? [|? [|? ?]]]; simplify_eq/=;
      by repeat constructor.
  - apply hier_step_run in Hstep
      as (_ & _ & fl & nodes & width & evs & Ht & _ & Hs & _).
    by destruct (Hs Hsmall) as [_ ?].
Qed.

Lemma hier_loop_feat_cell nf ann cts (st : LoopState) (w : World) st' w' :
  hier_loop nf ann cts st w = (Ok st', w') →
  cts ≠ [] → feat_cell (args w') = nf.
Proof.
  revert st w. induction cts as [|ct cts IH]; intros st w; [done|]. simpl.
  rewrite bind_run.
  destruct (hier_step nf ann ct st w) as [[st1|e] w1] eqn:H1; [|done].
  apply hier_step_run in H1 as (_ & _ & ? & ? & ? & ? & _ & _ & _ & Hok).
  destruct (Hok _ eq_refl) as (_ & Hfc & _).
  destruct cts as [|ct' cts]; [by intros [= <- <-]|].
  intros Hrest _. by eapply IH.
Qed.

(** C6.  Every round that completes leaves [feat_cell] at [num_features],
    the value read from the configuration when the run began (line 133).
    So over the whole loop only the first gene selection can be asked for
    a different number of genes - whatever [feat_cell] held on entry - and
    every later one is asked for [num_features]. *)
Theorem feat_cell_reset_between_groups nf ann cts (st : LoopState) (w : World) r w' :
  hier_loop nf ann cts st w = (r, w') →
  (∃ evs, trace w' = trace w ++ evs ∧
          tops_reset (feat_cell (args w)) nf (omap hvg_top evs)) ∧
  (∀ st', r = Ok st' → cts ≠ [] → feat_cell (args w') = nf) ∧
  (∀ ct st0 w0 st1 w1, hier_step nf ann ct st0 w0 = (Ok st1, w1) →
     feat_cell (args w1) = nf).
Proof.
  intros Hloop. split_and!.
  - apply hier_loop_run in Hloop as (_ & _ & _ & evs & ? & _ & _ & ? & _). eauto.
  - intros st' ->. by eapply hier_loop_feat_cell.
  - intros ct st0 w0 st1 w1 Hs.
    apply hier_step_run in Hs as (_ & _ & ? & ? & ? & ? & _ & _ & _ & Hok).
    by destruct (Hok _ eq_refl) as (_ & ? & _).
Qed.

(** C9.  The training call on the whole dataset is given the label vector
    of the run; every training call made inside the hierarchical loop is
    given no labels, so the label term of its loss is zero. *)
Theorem group_training_unlabelled adata label (w : World) a w1 nf r w2 :
  whole_latents adata label w = (Ok a, w1) →
  hierarchy nf a w1 = (r, w2) →
  (∃ evs, trace w1 = trace w ++ evs ∧ omap train_label evs = [label]) ∧
  (∃ evs, trace w2 = trace w1 ++ evs ∧
     Forall (λ e, ∀ l, train_label e = Some l →
               l = None ∧
               ∀ (V : Type) (zero : V) f, label_term zero f l = zero) evs).
Proof.
  intros Hwhole Hhier. split.
  - apply whole_latents_run in Hwhole as (_ & _ & fl & n & wd & evs & Ht & _ & Hok).
    destruct (Hok _ eq_refl) as (-> & _). eauto.
  - apply hierarchy_run in Hhier as (_ & _ & _ & evs & Ht & _ & Hl & _).
    exists evs. split; [done|]. eapply Forall_impl; [exact Hl|].
    intros e He l Hlab. by rewrite (He _ Hlab).
Qed.

(** C10.  Take any run that reaches a second gene selection, i.e. the
    finder of the first annotation group.  The first selection, on the
    whole dataset, was asked for the configured [feat_cell]; the second
    is asked for the width of the node feature matrix of the whole-dataset
    training - the value [Run_GNN_VAE] left in [feat_cell] - which is
    [n_comps] when [input_pca] is set and [sc.pp.pca] returns as many
    columns as it is asked for; only the selections after it see the
    configured value again. *)
Theorem first_group_sees_leftover_width (w : World) r w' evs t0 t1 rest :
  compute w = (r, w') →
  trace w' = trace w ++ evs →
  omap hvg_top evs = t0 :: t1 :: rest →
  t0 = feat_cell (args w) ∧
  (∃ cells nodes label pre post,
     evs = pre ++ EvTrain cells nodes t1 label (Str "whole ST data") :: post ∧
     omap train_width pre = []) ∧
  (input_pca (args w) = true →
   (∀ x k m, pp_pca x k = Ok m → Z.of_nat (ncols m) = k) →
   t1 = n_comps (args w)) ∧
  Forall (λ t, t = feat_cell (args w)) rest.
Proof.
  intros Hrun Ht Htops.
  apply compute_run in Hrun as (_ & _ & [(e & _ & Hs)|Hev]).
  { apply setup_run in Hs as (_ & _ & _ & Hs). rewrite Hs in Ht.
    rewrite <- (app_nil_r (trace w)) in Ht at 1.
    apply app_inv_head in Ht as <-. done. }
  destruct Hev as (a & l & w1 & fl & n & wd & evs1 & evs2 & _ & Ht' & Hpre
                   & Hfull & _ & _ & Hreset & _).
  rewrite Ht' in Ht. apply app_inv_head in Ht as <-.
  rewrite omap_app in Htops.
  assert (evs2 ≠ []) as Hne.
  { intros ->. rewrite app_nil_r in Htops.
    apply whole_calls_prefix in Hpre as (_ & _ & [Hp|Hp] & _);
      rewrite Hp in Htops; done. }
  destruct (Hfull (or_introl Hne)) as [-> Hpp]. simpl in Htops.
  injection Htops as <- Htops. rewrite Htops in Hreset.
  destruct Hreset as [-> Hrest]. split_and!; try done.
  - exists (obs_names a), n, l,
      [EvHVG fl (feat_cell (args w)) (obs_names a); EvAdjacency (obs_names a)],
      (EvPCA (obs_names a) :: evs2). done.
  - intros Hin Hwidth. destruct (Hpp Hin) as (x & node_X & Hx & ->).
    by apply Hwidth in Hx.
Qed.

(** ** Reassembly of the group frames *)

Lemma rows_labelled_missing l (df : DataFrame) :
  l ∉ index df → rows_labelled l df = [].
Proof.
  unfold rows_labelled. generalize (rows (values df)).
  induction (index df) as [|l0 idx IH]; intros rs Hl; [done|].
  destruct rs as [|r0 rs]; [done|]. simpl. rewrite filter_cons. simpl.
  apply not_elem_of_cons in Hl as [Hne Hl].
  rewrite decide_False by done. by apply IH.
Qed.

Lemma loc_missing l labels (df : DataFrame) :
  l ∈ labels → l ∉ index df → loc labels df = Raise (KeyError "not in index").
Proof.
  intros Hin Hmiss.
  assert (loc_rows labels df = Raise (KeyError "not in index")) as Hrows.
  { induction labels as [|l0 labels IH]; [by apply elem_of_nil in Hin|].
    simpl. apply elem_of_cons in Hin as [<-|Hin].
    - by rewrite rows_labelled_missing.
    - rewrite IH by done. by destruct (rows_labelled l0 df). }
  unfold loc. by rewrite Hrows.
Qed.

Lemma assign_index_index names g (p g' p' : DataFrame) :
  assign_index names g p = Ok (g', p') →
  index g' = map Name names ∧ index p' = map Name names.
Proof.
  unfold assign_index, set_index. eff_unfold. intros Ha.
  destruct g; eff_cases; done.
Qed.

Lemma group_latents_index ann ct (adata : AnnData) (w : World) g p w1 :
  group_latents ann ct adata w = (Ok (g, p), w1) →
  index g = map Name (group_cells ann ct adata) ∧
  index p = map Name (group_cells ann ct adata).
Proof.
  unfold group_latents, group_cells. rewrite bind_run. unfold lift at 1.
  destruct (get_obs ann adata) as [col|e]; [|done]. rewrite bind_run.
  destruct (Latent_Representation_Finder _ w) as [[self|e] w0]; [|done].
  rewrite bind_run.
  destruct (Run_PCA self w0) as [[[pcs self']|e] w2]; [|done].
  rewrite bind_run. unfold get_args at 1. rewrite bind_run.
  match goal with |- context [if ?b then _ else _] => destruct b end.
  - unfold mret, Eff_mret, Eff_ret, lift. intros [= Ha _].
    exact (assign_index_index _ SameAsPCA (DataFrame_of pcs) _ _ Ha).
  - rewrite bind_run.
    destruct (Run_GNN_VAE self' None ct w2) as [[m|e] w3]; [|done].
    unfold mret, Eff_mret, Eff_ret, lift. intros [= Ha _].
    exact (assign_index_index _ (Own (DataFrame_of m)) (DataFrame_of pcs) _ _ Ha).
Qed.

(** C1 (the code departs from the claim).  The two statements that attach
    the reassembled matrices (lines 196-197) sit inside the loop body, so
    they run at the end of every round, when only the groups seen so far
    have been concatenated.  Whenever the dataset has a cell that is
    neither in the current group nor in the frame accumulated so far - the
    situation of the first round of any dataset with two groups and
    distinct cell names - the lookup by [adata.obs_names] raises
    [KeyError] and the run ends there, with nothing attached. *)
Theorem attach_inside_loop_raises nf ann ct (st : LoopState) (w : World) g p w1 n :
  group_latents ann ct (loop_adata st) w = (Ok (g, p), w1) →
  n ∈ obs_names (loop_adata st) →
  n ∉ group_cells ann ct (loop_adata st) →
  Name n ∉ index (GVAE_all st) →
  hier_step nf ann ct st w =
    (Raise (KeyError "not in index"),
     {| args := set_feat_cell nf (args w1); files := files w1; dirs := dirs w1;
        trace := trace w1 |}).
Proof.
  intros Hg Hn Hout Hnew. unfold hier_step. rewrite bind_run, Hg.
  cbv beta iota. rewrite bind_run. unfold modify_args at 1.
  rewrite bind_run. unfold lift at 1.
  apply group_latents_index in Hg as [Hig _].
  rewrite (loc_missing (Name n)); [done| |].
  - apply list_elem_of_fmap. eauto.
  - simpl. rewrite Hig. intros [?|Hin]%elem_of_app; [done|].
    apply list_elem_of_fmap in Hin as (n' & [= <-] & ?). done.
Qed.

End Properties.

(** * Concrete runs *)

(** ** C8: the data-type tag left unset *)

(** The dataset of forty-eight cells is read and filtered; the run then
    stops at the first finder. *)
Lemma type_unset_raises_witness :
  type (args Sample.type_unset) = None ∧
  ∃ w1, run_find_latent_representation (H0 := Sample.healthy) Sample.type_unset
        = (Raise (KeyError "None"), w1) ∧
        trace w1 = [] ∧ files w1 = files Sample.type_unset.
Proof.
  split; [reflexivity|]. eexists. split.
  - refine (proj2 (type_unset_raises (H0 := Sample.healthy) Sample.type_unset
                     _ _ _ eq_refl _)).
    vm_compute. reflexivity.
  - split; vm_compute; reflexivity.
Defined.

(** ** C4: the width of the PCA embedding *)

(** The claim as stated fails: with the default [n_comps] of 300, on sixty
    cells by twelve genes, the decomposition has eleven components and
    [Run_PCA] returns eleven columns, not 300.  (On a dataset with more
    than fifty cells and genes it would return the fifty that [sc.tl.pca]
    keeps by default.) *)
Lemma Run_PCA_columns_counterexample :
  ∃ self w1 m self' w2,
    Latent_Representation_Finder (H0 := Sample.healthy)
      (Sample.dataset 12 Sample.two_layers) (Sample.two_groups 300 false)
    = (Ok self, w1) ∧
    Run_PCA (H0 := Sample.healthy) self w1 = (Ok (m, self'), w2) ∧
    n_comps (args w1) = 300 ∧ ncols m = 11%nat ∧
    Z.of_nat (ncols m) ≠ n_comps (args w1).
Proof.
  do 5 eexists. split_and!.
  - vm_compute. reflexivity.
  - vm_compute. reflexivity.
  - reflexivity.
  - reflexivity.
  - discriminate.
Qed.

Lemma Run_PCA_columns_witness :
  ∃ m self' w',
    Run_PCA (H0 := Sample.healthy)
      {| self_adata := Sample.dataset 12 Sample.two_layers |} (Sample.two_groups 10 false)
    = (Ok (m, self'), w') ∧
    ncols m = 10%nat ∧
    ∃ pcs,
      tl_pca (Collaborators := Sample.healthy) (Sample.dataset 12 Sample.two_layers)
        = Ok pcs ∧
      m = slice_cols (n_comps (args (Sample.two_groups 10 false))) pcs ∧
      nrows m = nrows pcs ∧
      (0 ≤ n_comps (args (Sample.two_groups 10 false)) →
       Z.of_nat (ncols m)
       = Z.min (n_comps (args (Sample.two_groups 10 false))) (Z.of_nat (ncols pcs))) ∧
      (rectangular pcs → rectangular m).
Proof.
  do 3 eexists. split; [vm_compute; reflexivity|]. split; [reflexivity|].
  refine (Run_PCA_columns (H0 := Sample.healthy)
            {| self_adata := Sample.dataset 12 Sample.two_layers |}
            (Sample.two_groups 10 false) _ _ _ _).
  vm_compute. reflexivity.
Defined.

(** ** C3: a training run that raises *)

(** The claim as stated fails: in this run the trainer is called and
    raises; the run ends with that exception and [sc.tl.pca] is never
    called. *)
Lemma gvae_failure_counterexample :
  (run_find_latent_representation (H0 := Sample.failing_training)
     (Sample.two_groups 10 false)).1 = Raise (External "non-finite loss") ∧
  existsb is_train
    (trace (run_find_latent_representation (H0 := Sample.failing_training)
              (Sample.two_groups 10 false)).2) = true ∧
  existsb is_pca
    (trace (run_find_latent_representation (H0 := Sample.failing_training)
              (Sample.two_groups 10 false)).2) = false.
Proof. vm_compute. repeat split. Qed.

Lemma gvae_failure_ends_run_witness :
  ∃ e w3,
    run_find_latent_representation (H0 := Sample.failing_training)
      (Sample.two_groups 10 false) = (Raise e, w3) ∧
    files w3 = files (Sample.two_groups 10 false) ∧
    ∃ evs, trace w3 = trace (Sample.two_groups 10 false) ++ evs ∧
           Forall (λ ev, is_pca ev = false) evs.
Proof.
  do 2 eexists.
  refine (gvae_failure_ends_run (H0 := Sample.failing_training)
            (Sample.two_groups 10 false) _ _ _ _ _ _ _ _ _ _).
  - vm_compute. reflexivity.
  - vm_compute. reflexivity.
  - vm_compute. reflexivity.
Defined.

(** ** C7: a write that raises *)

(** The claim as stated fails: the final write raises for lack of space.
    The output path held no file before the run and holds a truncated one
    after it. *)
Lemma output_written_in_place_counterexample :
  files (Sample.two_groups 10 false)
    !! output_hdf5_path (args (Sample.two_groups 10 false)) = None ∧
  (run_find_latent_representation (H0 := Sample.failing_disk)
     (Sample.two_groups 10 false)).1 = Raise (OSError "no space left on device") ∧
  files (run_find_latent_representation (H0 := Sample.failing_disk)
           (Sample.two_groups 10 false)).2
    !! output_hdf5_path (args (Sample.two_groups 10 false)) = Some Truncated.
Proof. vm_compute. repeat split. Qed.

Lemma output_written_in_place_witness :
  ∃ r w',
    run_find_latent_representation (H0 := Sample.failing_disk)
      (Sample.two_groups 10 false) = (r, w') ∧
    ((∃ e, r = Raise e ∧ files w' = files (Sample.two_groups 10 false) ∧
           Forall (λ ev, ∀ p, ev ≠ EvWrite p)
             (drop (length (trace (Sample.two_groups 10 false))) (trace w')))
     ∨
     (∃ adata w1,
        compute (H0 := Sample.failing_disk) (Sample.two_groups 10 false)
          = (Ok adata, w1) ∧
        write_h5ad (Collaborators := Sample.failing_disk) adata
          (output_hdf5_path (args (Sample.two_groups 10 false)))
          (files (Sample.two_groups 10 false)) = (r, files w') ∧
        trace w' = trace w1
                   ++ [EvWrite (output_hdf5_path (args (Sample.two_groups 10 false)))])).
Proof.
  do 2 eexists. split; [vm_compute; reflexivity|].
  refine (output_written_in_place (H0 := Sample.failing_disk)
            (Sample.two_groups 10 false) _ _ _).
  vm_compute. reflexivity.
Defined.

(** ** C5: the annotation filter *)

Lemma undersized_groups_filtered_witness :
  ∃ r w',
    compute (H0 := Sample.healthy) Sample.one_group = (r, w') ∧
    let kept := filter (λ p, retained Sample.one_layer p.1)
                  (zip Sample.one_layer (obs_names (Sample.dataset 12 Sample.one_layer))) in
    length kept = 40%nat ∧
    Forall (λ p, p.1 ≠ Null ∧ (30 ≤ value_count p.1 Sample.one_layer)%nat) kept ∧
    (∃ evs, trace w' = trace Sample.one_group ++ evs ∧
            Forall (λ e, sublist (event_cells e) kept.*2) evs) ∧
    (∀ e w1, setup (H0 := Sample.healthy) Sample.one_group = (Raise e, w1) →
       mkdir (Collaborators := Sample.healthy)
         (path_parent (Collaborators := Sample.healthy)
            (output_hdf5_path (args Sample.one_group)))
         (dirs Sample.one_group) = Raise e ∨
       LabelEncoder (Collaborators := Sample.healthy)
         (filter (retained Sample.one_layer) Sample.one_layer) = Raise e ∨
       ∃ codes, LabelEncoder (Collaborators := Sample.healthy)
                  (filter (retained Sample.one_layer) Sample.one_layer) = Ok codes ∧
                length codes ≠ length kept).
Proof.
  do 2 eexists. split; [vm_compute; reflexivity|].
  split; [vm_compute; reflexivity|].
  refine (undersized_groups_filtered (H0 := Sample.healthy) Sample.one_group
            (Sample.dataset 12 Sample.one_layer) "layer_guess" Sample.one_layer
            _ _ _ _ _ _).
  - reflexivity.
  - vm_compute. reflexivity.
  - vm_compute. reflexivity.
  - vm_compute. reflexivity.
Defined.

(** ** C2: a group of at most [n_comps] cells *)

Lemma small_group_takes_pca_witness :
  ∃ st' w',
    hier_step (H0 := Sample.healthy) 3000 "layer_guess" (Str "L1")
      (Sample.loop_start (Sample.dataset 12 Sample.single_layer)) Sample.one_group
    = (Ok st', w') ∧
    Z.of_nat (length (group_cells "layer_guess" (Str "L1")
                        (Sample.dataset 12 Sample.single_layer)))
    ≤ n_comps (args Sample.one_group) ∧
    (∃ evs, trace w' = trace Sample.one_group ++ evs ∧
            Forall (λ e, is_train e = false) evs) ∧
    GVAE_all st' = PCA_all st' ∧
    ∃ m, obsm (loop_adata st') !! "latent_GVAE_hierarchy" = Some m ∧
         obsm (loop_adata st') !! "latent_PCA_hierarchy" = Some m.
Proof.
  do 2 eexists. split; [vm_compute; reflexivity|].
  split; [vm_compute; discriminate|].
  refine (let H := small_group_takes_pca (H0 := Sample.healthy) 3000 "layer_guess"
                     (Str "L1") (Sample.loop_start (Sample.dataset 12 Sample.single_layer))
                     Sample.one_group _ _ _ _ in
          conj (proj1 (proj2 H)) (proj2 (proj2 H) _ eq_refl eq_refl)).
  - vm_compute. reflexivity.
  - vm_compute. discriminate.
Defined.

(** ** C6: the reset of [feat_cell] *)

(** The loop entered with [feat_cell] as the whole-dataset training left
    it (10), on the dataset whose two layers share their cell names: the
    first round is asked for 10 genes, the second for the configured 3000. *)
Lemma feat_cell_reset_between_groups_witness :
  ∃ r w',
    hier_loop (H0 := Sample.healthy) 3000 "layer_guess" [Str "L1"; Str "L2"]
      (Sample.loop_start
         (Sample.dataset_named
            (map Sample.cell_name (seq 0 30) ++ map Sample.cell_name (seq 0 30))
            12 Sample.two_layers))
      Sample.entering_loop
    = (r, w') ∧
    feat_cell (args Sample.entering_loop) = 10 ∧
    omap hvg_top (trace w') = [10; 3000] ∧
    ∃ evs,
      trace w' = trace Sample.entering_loop ++ evs ∧
      tops_reset (feat_cell (args Sample.entering_loop)) 3000 (omap hvg_top evs).
Proof.
  do 2 eexists. split; [vm_compute; reflexivity|].
  split; [reflexivity|]. split; [vm_compute; reflexivity|].
  refine (proj1 (feat_cell_reset_between_groups (H0 := Sample.healthy)
                   3000 "layer_guess" [Str "L1"; Str "L2"]
                   (Sample.loop_start
                      (Sample.dataset_named
                         (map Sample.cell_name (seq 0 30)
                          ++ map Sample.cell_name (seq 0 30))
                         12 Sample.two_layers))
                   Sample.entering_loop _ _ _)).
  vm_compute. reflexivity.
Defined.

(** ** C9: the labels given to the trainer *)

Lemma group_training_unlabelled_witness :
  ∃ a w1 r w2,
    whole_latents (H0 := Sample.healthy) (Sample.dataset 12 Sample.two_layers)
      (Some (replicate 30 0 ++ replicate 30 1)) (Sample.two_groups 10 true)
    = (Ok a, w1) ∧
    hierarchy (H0 := Sample.healthy) 3000 a w1 = (r, w2) ∧
    omap train_label (trace w2)
    = [Some (replicate 30 0 ++ replicate 30 1); None] ∧
    (∃ evs, trace w1 = trace (Sample.two_groups 10 true) ++ evs ∧
            omap train_label evs = [Some (replicate 30 0 ++ replicate 30 1)]) ∧
    (∃ evs, trace w2 = trace w1 ++ evs ∧
       Forall (λ e, ∀ l, train_label e = Some l →
                 l = None ∧
                 ∀ (V : Type) (zero : V) f, label_term zero f l = zero) evs).
Proof.
  do 4 eexists. split; [vm_compute; reflexivity|].
  split; [vm_compute; reflexivity|]. split; [vm_compute; reflexivity|].
  refine (group_training_unlabelled (H0 := Sample.healthy)
            (Sample.dataset 12 Sample.two_layers)
            (Some (replicate 30 0 ++ replicate 30 1)) (Sample.two_groups 10 true)
            _ _ 3000 _ _ _ _).
  - vm_compute. reflexivity.
  - vm_compute. reflexivity.
Defined.

(** ** C10: what the first group's finder is asked for *)

Lemma first_group_sees_leftover_width_witness :
  ∃ r w',
    compute (H0 := Sample.healthy) (Sample.two_groups 10 true) = (r, w') ∧
    omap hvg_top (trace w') = [3000; 10] ∧
    3000 = feat_cell (args (Sample.two_groups 10 true)) ∧
    (∃ cells nodes label pre post,
       trace w' = pre ++ EvTrain cells nodes 10 label (Str "whole ST data") :: post ∧
       omap train_width pre = []) ∧
    (input_pca (args (Sample.two_groups 10 true)) = true →
     (∀ x k m, pp_pca (Collaborators := Sample.healthy) x k = Ok m →
               Z.of_nat (ncols m) = k) →
     10 = n_comps (args (Sample.two_groups 10 true))) ∧
    Forall (λ t, t = feat_cell (args (Sample.two_groups 10 true))) [].
Proof.
  do 2 eexists. split; [vm_compute; reflexivity|].
  split; [vm_compute; reflexivity|].
  refine (first_group_sees_leftover_width (H0 := Sample.healthy)
            (Sample.two_groups 10 true) _ _ _ 3000 10 [] _ eq_refl _).
  - vm_compute. reflexivity.
  - vm_compute. reflexivity.
Defined.

(** ** C1: two groups *)

(** The first round of the loop over sixty cells in two layers: the frame
    of layer L1 is built, and the lookup of all sixty names in it raises. *)
Lemma attach_inside_loop_raises_witness :
  ∃ w',
    hier_step (H0 := Sample.healthy) 3000 "layer_guess" (Str "L1")
      (Sample.loop_start (Sample.dataset 12 Sample.two_layers))
      (Sample.two_groups 10 true)
    = (Raise (KeyError "not in index"), w') ∧
    existsb is_train (trace w') = true.
Proof.
  eexists. split.
  - refine (attach_inside_loop_raises (H0 := Sample.healthy) 3000 "layer_guess"
              (Str "L1") (Sample.loop_start (Sample.dataset 12 Sample.two_layers))
              (Sample.two_groups 10 true) _ _ _ "c30" _ _ _ _).
    + vm_compute. reflexivity.
    + apply (bool_decide_unpack _). vm_compute. exact I.
    + apply (bool_decide_unpack _). vm_compute. exact I.
    + apply not_elem_of_nil.
  - vm_compute. reflexivity.
Defined.

(** The whole run on that input, with the hierarchical flag set: both
    embeddings of the whole dataset are computed, the first group is
    trained, then the run ends with [KeyError]; the output path holds no
    file.  The claim expects two matrices of sixty rows in the output. *)
Example two_groups_run_raises :
  (run_find_latent_representation (H0 := Sample.healthy)
     (Sample.two_groups 10 true)).1 = Raise (KeyError "not in index") ∧
  files (run_find_latent_representation (H0 := Sample.healthy)
           (Sample.two_groups 10 true)).2 !! "out/latent.h5ad" = None.
Proof. vm_compute. split; reflexivity. Qed.

(** With a single retained group the same code completes, and the
    reassembled matrices have one row per retained cell. *)
Example one_group_run_completes :
  (run_find_latent_representation (H0 := Sample.healthy) Sample.one_group).1 = Ok () ∧
  match files (run_find_latent_representation (H0 := Sample.healthy)
                 Sample.one_group).2 !! "out/latent.h5ad" with
  | Some (Dataset a) =>
      n_obs a = 40%nat ∧
      nrows <$> obsm a !! "latent_GVAE_hierarchy" = Some 40%nat ∧
      nrows <$> obsm a !! "latent_PCA_hierarchy" = Some 40%nat ∧
      rows <$> obsm a !! "latent_PCA_hierarchy" = rows <$> obsm a !! "latent_PCA"
  | _ => False
  end.
Proof. vm_compute. repeat split. Qed.

(** * Further properties of the run *)

Section Further.
Context `{Collaborators}.

(** ** Failures before any computation *)

Lemma setup_raises (w : World) e w1 :
  setup w = (Raise e, w1) → run_find_latent_representation w = (Raise e, w1).
Proof.
  intros Hs. unfold run_find_latent_representation, compute.
  rewrite !bind_run. unfold get_args at 1. by rewrite bind_run, Hs.
Qed.

(** X1.  The output directory is created before the input is opened: a run
    whose input path holds no readable dataset still leaves the directory
    behind, then raises [OSError]; no collaborator has been called. *)
Theorem unreadable_input_after_mkdir (w : World) ds :
  mkdir (path_parent (output_hdf5_path (args w))) (dirs w) = Ok ds →
  (∀ a, files w !! input_hdf5_path (args w) ≠ Some (Dataset a)) →
  ∃ what, run_find_latent_representation w
          = (Raise (OSError what), with_output_dir ds w).
Proof.
  intros Hmk Hin.
  assert (∃ what, setup w = (Raise (OSError what), with_output_dir ds w))
    as [what Hs].
  { unfold setup, load, make_dirs, read_h5ad. eff_unfold. simpl. rewrite Hmk. simpl.
    destruct (files w !! input_hdf5_path (args w)) as [[a|]|] eqn:Hf;
      [by destruct (Hin a)|by eexists|by eexists]. }
  exists what. by apply setup_raises.
Qed.

Lemma load_labels_missing (adata : AnnData) (w : World) ann :
  annotation (args w) = Some ann → obs adata !! ann = None →
  load_labels adata w = (Raise (KeyError ann), w).
Proof.
  intros Hann Hcol. unfold load_labels. rewrite bind_run. unfold get_args at 1.
  rewrite Hann. rewrite bind_run. unfold lift at 1, get_obs. by rewrite Hcol.
Qed.

(** X2.  An annotation column that the dataset does not have raises [KeyError]
    with the column's name, after the directory is created and the
    dataset is read, and before any collaborator is called. *)
Theorem missing_annotation_column (w : World) ds raw ann :
  mkdir (path_parent (output_hdf5_path (args w))) (dirs w) = Ok ds →
  files w !! input_hdf5_path (args w) = Some (Dataset raw) →
  annotation (args w) = Some ann →
  obs raw !! ann = None →
  run_find_latent_representation w = (Raise (KeyError ann), with_output_dir ds w).
Proof.
  intros Hmk Hin Hann Hcol. apply setup_raises.
  unfold setup, load, make_dirs. rewrite bind_run.
  unfold get_args at 1. rewrite bind_run. unfold modify_args at 1.
  rewrite bind_run. simpl. rewrite Hmk.
  rewrite bind_run. unfold get_args at 1. rewrite bind_run.
  unfold read_h5ad at 1. simpl. rewrite Hin.
  by apply load_labels_missing.
Qed.

(** ** A run without the hierarchical stage *)

Lemma whole_latents_output (adata : AnnData) label (w : World) a w' :
  whole_latents adata label w = (Ok a, w') →
  ∃ g p u1 u2,
    a = put_obsm "X_umap_latent_PCA" u2 (put_obsm "X_umap" u2
          (put_obsm "X_umap_latent_GVAE" u1 (put_obsm "X_umap" u1
             (put_obsm "latent_PCA" p (put_obsm "latent_GVAE" g adata))))) ∧
    nrows g = n_obs adata ∧ nrows p = n_obs adata ∧
    nrows u1 = n_obs adata ∧ nrows u2 = n_obs adata.
Proof.
  unfold whole_latents. rewrite bind_run.
  destruct (Latent_Representation_Finder adata w) as [[self|e] w1]; [|done].
  rewrite bind_run.
  destruct (Run_GNN_VAE self label (Str "whole ST data") w1) as [[g|e] w2]; [|done].
  rewrite bind_run.
  destruct (Run_PCA self w2) as [[[p self']|e] w3]; [|done].
  unfold add_umap, set_obsm, put_obsm, n_obs. eff_unfold. simpl.
  destruct (decide (nrows g = _)) as [Hg|]; simpl; [|done].
  destruct (decide (nrows p = _)) as [Hp|]; simpl; [|done].
  destruct (neighbors_umap 10 "latent_GVAE" _) as [u1|]; simpl; [|done].
  destruct (decide (nrows u1 = _)) as [Hu1|]; simpl; [|done].
  rewrite lookup_insert_eq. simpl. rewrite decide_True by done. simpl.
  destruct (neighbors_umap 10 "latent_PCA" _) as [u2|]; simpl; [|done].
  destruct (decide (nrows u2 = _)) as [Hu2|]; simpl; [|done].
  rewrite lookup_insert_eq. simpl. rewrite decide_True by done. simpl.
  intros [= <- <-]. by exists g, p, u1, u2.
Qed.

Lemma hierarchy_skipped nf (adata : AnnData) (w : World) :
  annotation (args w) = None ∨ hierarchically (args w) = false →
  hierarchy nf adata w = (Ok adata, w).
Proof.
  unfold hierarchy. eff_unfold. intros [->| ->]; [done|].
  by destruct (annotation (args w)).
Qed.

Lemma flat_run_stages (w : World) w' :
  run_find_latent_representation w = (Ok (), w') →
  annotation (args w) = None ∨ hierarchically (args w) = false →
  ∃ adata label w1 a w2,
    setup w = (Ok (adata, label), w1) ∧
    whole_latents adata label w1 = (Ok a, w2) ∧
    write a (output_hdf5_path (args w)) w2 = (Ok (), w').
Proof.
  intros Hrun Hflat.
  apply run_stages in Hrun as [(e & ? & _)|(a & w2 & Hc & Hw)]; [done|].
  pose proof Hc as Hc'. apply compute_run in Hc' as (_ & Ha & _).
  assert (output_hdf5_path (args w2) = output_hdf5_path (args w)) as Hout
    by (apply (f_equal output_hdf5_path) in Ha; done).
  rewrite Hout in Hw.
  apply compute_stages in Hc
    as [(? & ? & _)|[(? & ? & ? & ? & ? & _)|(adata & label & w1 & a0 & w3 & Hs & Hwh & Hh)]];
    try done.
  assert (annotation (args w3) = None ∨ hierarchically (args w3) = false) as Hflat3.
  { apply setup_run in Hs as (Ha1 & _).
    apply whole_latents_run in Hwh as (Ha2 & _).
    assert (frozen (args w3) = frozen (args w)) as Hfr by (by rewrite Ha2).
    destruct Hflat as [Hn|Hn]; [left|right]; rewrite <- Hn.
    - by apply (f_equal annotation) in Hfr.
    - by apply (f_equal hierarchically) in Hfr. }
  rewrite (hierarchy_skipped _ _ _ Hflat3) in Hh. injection Hh as <- <-.
  eauto 10.
Qed.


(** X4.  What such a run writes: the dataset that [setup] produced, with the
    same cells, genes, expression matrix, layers and metadata - none of
    the finder's preprocessing reaches it - and with five entries assigned
    in [obsm].  [X_umap] is left holding the projection of [latent_PCA],
    the last one computed; every other entry of [obsm], [X_pca] included,
    is as [setup] left it. *)
Theorem flat_run_output (w : World) w' :
  run_find_latent_representation w = (Ok (), w') →
  annotation (args w) = None ∨ hierarchically (args w) = false →
  ∃ adata label w1 a,
    setup w = (Ok (adata, label), w1) ∧
    write_h5ad a (output_hdf5_path (args w)) (files w) = (Ok (), files w') ∧
    obs_names a = obs_names adata ∧ var_names a = var_names adata ∧
    X a = X adata ∧ layers a = layers adata ∧ obs a = obs adata ∧
    highly_variable a = highly_variable adata ∧
    Forall (λ k, ∃ m, obsm a !! k = Some m ∧ nrows m = n_obs adata) embedding_keys ∧
    obsm a !! "X_umap" = obsm a !! "X_umap_latent_PCA" ∧
    (∀ k, k ∉ embedding_keys → obsm a !! k = obsm adata !! k).
Proof.
  intros Hrun Hflat.
  destruct (flat_run_stages _ _ Hrun Hflat)
    as (adata & label & w1 & a & w2 & Hs & Hwh & Hw).
  exists adata, label, w1, a. split; [done|].
  assert (files w2 = files w) as Hf.
  { apply setup_run in Hs as (_ & _ & Hf1 & _).
    apply whole_latents_run in Hwh as (_ & Hf2 & _). congruence. }
  split.
  { unfold write in Hw. rewrite Hf in Hw.
    destruct (write_h5ad _ _ _) as [r fs]. by injection Hw as -> <-. }
  apply whole_latents_output in Hwh as (g & p & u1 & u2 & -> & Hg & Hp & Hu1 & Hu2).
  simpl. split_and!; try done.
  - unfold embedding_keys. repeat apply Forall_cons_2; try apply Forall_nil_2.
    + exists g. repeat (rewrite lookup_insert_ne by done). by rewrite lookup_insert_eq.
    + exists p. repeat (rewrite lookup_insert_ne by done). by rewrite lookup_insert_eq.
    + exists u2. repeat (rewrite lookup_insert_ne by done). by rewrite lookup_insert_eq.
    + exists u1. repeat (rewrite lookup_insert_ne by done). by rewrite lookup_insert_eq.
    + exists u2. by rewrite lookup_insert_eq.
  - rewrite lookup_insert_ne by done. by rewrite !lookup_insert_eq.
  - intros k Hk. unfold embedding_keys in Hk.
    rewrite !not_elem_of_cons in Hk. destruct Hk as (? & ? & ? & ? & ? & _).
    by repeat (rewrite lookup_insert_ne by done).
Qed.

(** ** The label vector *)

Lemma setup_labels (w : World) raw ann col adata label w1 :
  annotation (args w) = Some ann →
  files w !! input_hdf5_path (args w) = Some (Dataset raw) →
  get_obs ann raw = Ok col →
  setup w = (Ok (adata, label), w1) →
  ∃ codes,
    label = Some codes ∧
    LabelEncoder (filter (retained col) col) = Ok codes ∧
    length codes = length (obs_names adata) ∧
    obs_names adata = (filter (λ p, retained col p.1) (zip col (obs_names raw))).*2.
Proof.
  intros Hann Hfile Hcol. unfold setup, load, make_dirs. rewrite bind_run.
  unfold get_args at 1. rewrite bind_run. unfold modify_args at 1.
  rewrite bind_run. simpl.
  destruct (mkdir _ _) as [ds|e]; [|done].
  rewrite bind_run. unfold get_args at 1. rewrite bind_run.
  unfold read_h5ad at 1. simpl. rewrite Hfile.
  erewrite load_labels_filter; [|by simpl|exact Hcol].
  set (a := set_var_names _ raw).
  destruct (LabelEncoder _) as [codes|e]; [|done].
  case_decide as Hlen; [|done]. intros [= <- <- <-].
  exists codes. split_and!; try done.
  exact (retained_cells_names col a).
Qed.

(** X5.  With an annotation column, a training call that receives labels is
    the one on the whole dataset: its cells are the retained ones, and its
    label vector is what the label encoder returned for their annotation
    values, one code per cell. *)
Theorem labelled_training_call (w : World) raw ann col r w' evs cells nodes width l v :
  annotation (args w) = Some ann →
  files w !! input_hdf5_path (args w) = Some (Dataset raw) →
  get_obs ann raw = Ok col →
  compute w = (r, w') →
  trace w' = trace w ++ evs →
  EvTrain cells nodes width (Some l) v ∈ evs →
  cells = (filter (λ p, retained col p.1) (zip col (obs_names raw))).*2 ∧
  LabelEncoder (filter (retained col) col) = Ok l ∧
  length l = length cells ∧
  v = Str "whole ST data".
Proof.
  intros Hann Hfile Hcol Hrun Ht Hin.
  apply compute_run in Hrun as (_ & _ & [(e & _ & Hs)|Hev]).
  { apply setup_run in Hs as (_ & _ & _ & Hs). rewrite Hs in Ht.
    rewrite <- (app_nil_r (trace w)) in Ht at 1.
    apply app_inv_head in Ht as <-. by apply elem_of_nil in Hin. }
  destruct Hev as (a & lab & w1 & fl & n & wd & evs1 & evs2 & Hs & Ht' & Hpre
                   & _ & _ & Hl2 & _).
  rewrite Ht' in Ht. apply app_inv_head in Ht as <-.
  destruct (setup_labels _ _ _ _ _ _ _ Hann Hfile Hcol Hs)
    as (codes & -> & Henc & Hlen & Hnames).
  apply elem_of_app in Hin as [Hin|Hin].
  - destruct Hpre as [k Hk]. unfold whole_calls in Hk.
    assert (EvTrain cells nodes width (Some l) v
            ∈ whole_calls fl (feat_cell (args w)) (obs_names a) n wd (Some codes))
      as Hin'.
    { unfold whole_calls. rewrite Hk. apply elem_of_app. by left. }
    unfold whole_calls in Hin'. rewrite !elem_of_cons in Hin'.
    destruct Hin' as [?|[?|[Heq|[?|Hnil]]]]; try done;
      [|by apply elem_of_nil in Hnil].
    injection Heq as -> -> -> -> ->. done.
  - rewrite Forall_forall in Hl2. by specialize (Hl2 _ Hin _ eq_refl).
Qed.

(** X6.  When no annotation value is shared by thirty cells, the filter keeps
    nothing: the run goes on with a dataset of zero cells and an empty
    label vector, and every call it makes is on zero cells.  Nothing in
    the module stops it. *)
Theorem no_group_retained (w : World) raw ann col r w' :
  annotation (args w) = Some ann →
  files w !! input_hdf5_path (args w) = Some (Dataset raw) →
  get_obs ann raw = Ok col →
  Forall (λ v, (value_count v col < 30)%nat) col →
  compute w = (r, w') →
  (∀ adata label w1, setup w = (Ok (adata, label), w1) →
     obs_names adata = [] ∧ label = Some []) ∧
  ∃ evs, trace w' = trace w ++ evs ∧ Forall (λ e, event_cells e = []) evs.
Proof.
  intros Hann Hfile Hcol Hsmall Hrun.
  assert (filter (λ p : ObsValue * string, retained col p.1) (zip col (obs_names raw))
          = []) as Hnone.
  { destruct (filter _ (zip col (obs_names raw))) as [|[v n] ps] eqn:Hf; [done|].
    exfalso. assert ((v, n) ∈ (v, n) :: ps) as Hin by left.
    rewrite <- Hf in Hin. apply list_elem_of_filter in Hin as [[_ Hv] Hin].
    simpl in Hv. apply elem_of_zip_l in Hin. rewrite Forall_forall in Hsmall.
    specialize (Hsmall _ Hin). lia. }
  split.
  - intros adata label w1 Hs.
    destruct (setup_labels _ _ _ _ _ _ _ Hann Hfile Hcol Hs)
      as (codes & -> & _ & Hlen & Hnames).
    rewrite Hnone in Hnames. simpl in Hnames. rewrite Hnames in Hlen.
    split; [done|]. f_equal. by apply nil_length_inv.
  - destruct (undersized_groups_filtered _ _ _ _ _ _ Hann Hfile Hcol Hrun)
      as (_ & (evs & Ht & Hsub) & _).
    exists evs. split; [done|]. rewrite Hnone in Hsub. simpl in Hsub.
    eapply Forall_impl; [exact Hsub|]. intros e He. simpl in He.
    by apply sublist_nil_r in He.
Qed.

(** ** Reassembly when one group covers the dataset *)








(** ** The groups of the loop *)


Lemma group_cells_filter ann ct (adata : AnnData) col :
  get_obs ann adata = Ok col →
  group_cells ann ct adata
  = (filter (λ p, p.1 = ct) (zip col (obs_names adata))).*2.
Proof.
  intros Hcol. unfold group_cells, select_group. rewrite Hcol. simpl.
  rewrite filter_mask_map. f_equal. apply list_filter_iff. intros p.
  by rewrite bool_decide_eq_true.
Qed.



(** ** Two annotation values and distinct cell names *)

Lemma zip_functional {A B : Type} (l : list A) (k : list B) a b n :
  NoDup k → (a, n) ∈ zip l k → (b, n) ∈ zip l k → a = b.
Proof.
  revert k. induction l as [|c l IH]; intros [|m k] Hnd Ha Hb;
    try by apply elem_of_nil in Ha.
  apply NoDup_cons in Hnd as [Hm Hnd]. simpl in Ha, Hb.
  apply elem_of_cons in Ha as [Ha|Ha]; apply elem_of_cons in Hb as [Hb|Hb].
  - congruence.
  - injection Ha as -> ->. by apply elem_of_zip_r in Hb.
  - injection Hb as -> ->. by apply elem_of_zip_r in Ha.
  - by eapply IH.
Qed.

Lemma zip_partner {A B : Type} (l : list A) (k : list B) a :
  a ∈ l → (length l ≤ length k)%nat → ∃ n, (a, n) ∈ zip l k.
Proof.
  revert k. induction l as [|c l IH]; intros k Ha Hlen;
    [by apply elem_of_nil in Ha|].
  destruct k as [|m k]; [simpl in Hlen; lia|]. simpl in Hlen.
  apply elem_of_cons in Ha as [->|Ha].
  - exists m. left.
  - destruct (IH k Ha ltac:(lia)) as [n Hn]. exists n. by right.
Qed.

Lemma unique_head col v : v ∈ col → ∃ ct rest, unique col = ct :: rest ∧ ct ∈ col.
Proof.
  destruct col as [|c col]; [by intros ?%elem_of_nil|]. intros _. simpl.
  eexists _, _. split; [done|]. left.
Qed.

Lemma round_raises_outside nf ann ct (st : LoopState) (w : World) n r w' :
  n ∈ obs_names (loop_adata st) →
  n ∉ group_cells ann ct (loop_adata st) →
  Name n ∉ index (GVAE_all st) →
  hier_step nf ann ct st w = (r, w') → ∃ e, r = Raise e.
Proof.
  intros Hn Hout Hnew. unfold hier_step. rewrite bind_run.
  destruct (group_latents ann ct (loop_adata st) w) as [[[g p]|e] w1] eqn:Hg;
    [|intros [= <- _]; eauto].
  cbv beta iota. rewrite bind_run. unfold modify_args at 1.
  rewrite bind_run. unfold lift at 1.
  apply group_latents_index in Hg as [Hig _].
  rewrite (loc_missing (Name n)).
  - intros [= <- _]. eauto.
  - apply list_elem_of_fmap. eauto.
  - simpl. rewrite Hig. intros [?|Hin]%elem_of_app; [done|].
    apply list_elem_of_fmap in Hin as (n' & [= <-] & ?). done.
Qed.

(** X9.  With the hierarchical flag set, a dataset whose cells have distinct
    names and carry at least two different annotation values never gets
    through the hierarchical stage: the first round already raises. *)
Theorem hierarchy_two_values_raises nf (adata : AnnData) (w : World) ann col v1 v2 r w' :
  annotation (args w) = Some ann →
  hierarchically (args w) = true →
  get_obs ann adata = Ok col →
  length col = n_obs adata →
  NoDup (obs_names adata) →
  v1 ∈ col → v2 ∈ col → v1 ≠ v2 →
  hierarchy nf adata w = (r, w') →
  ∃ e, r = Raise e.
Proof.
  intros Hann Hhier Hcol Hlen Hnd Hv1 Hv2 Hne.
  unfold hierarchy. rewrite bind_run. unfold get_args at 1. rewrite Hann, Hhier.
  rewrite bind_run. unfold lift at 1. rewrite Hcol. cbv beta iota.
  destruct (unique_head col v1 Hv1) as (ct & rest & -> & Hct).
  assert (∃ v, v ∈ col ∧ v ≠ ct) as (v & Hv & Hvct).
  { destruct (decide (v1 = ct)) as [->|]; eauto. }
  destruct (zip_partner col (obs_names adata) v Hv) as [n Hn];
    [unfold n_obs in Hlen; lia|].
  rewrite bind_run. simpl hier_loop. rewrite bind_run.
  match goal with |- context [hier_step nf ann ct ?st w] =>
    destruct (hier_step nf ann ct st w) as [[st1|e] w1] eqn:Hstep end.
  - apply round_raises_outside with (n := n) in Hstep as [e [=]].
    + simpl. by apply elem_of_zip_r in Hn.
    + simpl. rewrite (group_cells_filter _ _ _ _ Hcol).
      intros Hin. apply list_elem_of_fmap in Hin as ([v' n'] & Heq & Hin).
      simpl in Heq. subst n'. apply list_elem_of_filter in Hin as [Hv' Hin].
      simpl in Hv'. subst v'. apply Hvct.
      exact (zip_functional col (obs_names adata) v ct n Hnd Hn Hin).
    + simpl. apply not_elem_of_nil.
  - intros [= <- _]. eauto.
Qed.

(** ** One annotation value *)




(** ** The shared configuration after a training call *)

(** X10.  Whenever [Run_GNN_VAE] gets as far as calling the trainer - whether the
    training then returns or raises - the configuration object holds the
    node count and the feature width of the matrix the trainer was given,
    and the call was made with the caller's labels and tag on the finder's
    cells.  When it stops earlier, the configuration is as it was. *)
Theorem Run_GNN_VAE_leaves_shape (self : Finder) label verbose (w : World) r w' :
  Run_GNN_VAE self label verbose w = (r, w') →
  ∃ evs, trace w' = trace w ++ evs ∧
    (Forall (λ e, is_train e = false) evs → args w' = args w) ∧
    ∀ cells nodes width l v,
      EvTrain cells nodes width l v ∈ evs →
      feat_cell (args w') = width ∧ n_nodes (args w') = Some nodes ∧
      cells = obs_names (self_adata self) ∧ l = label ∧ v = verbose.
Proof.
  intros Hrun.
  apply Run_GNN_VAE_run in Hrun as (_ & _ & _ & [(_ & Ha & Ht)|Hok]).
  - eexists. split; [exact Ht|]. split; [done|].
    intros cells nodes width l v [?|Hin%elem_of_nil]%elem_of_cons; done.
  - destruct Hok as (x & node_X & _ & _ & Hfc & Hnn & Ht).
    eexists. split; [exact Ht|]. split.
    + intros Hall. apply Forall_cons in Hall as [_ Hall].
      by apply Forall_cons in Hall as [? _].
    + intros cells nodes width l v Hin. rewrite !elem_of_cons in Hin.
      destruct Hin as [?|[Heq|Hnil]]; [done| |by apply elem_of_nil in Hnil].
      by injection Heq as -> -> -> -> ->.
Qed.

End Further.

(** ** Concrete runs for the further properties *)

Lemma unreadable_input_after_mkdir_witness :
  ∃ what,
    run_find_latent_representation (H0 := Sample.healthy) Sample.no_input
    = (Raise (OSError what),
       with_output_dir (H0 := Sample.healthy) ({[ "out" ]} ∪ ∅) Sample.no_input).
Proof.
  refine (unreadable_input_after_mkdir (H0 := Sample.healthy) Sample.no_input
            ({[ "out" ]} ∪ ∅) _ _).
  - reflexivity.
  - intros a. vm_compute. discriminate.
Defined.

Lemma missing_annotation_column_witness :
  run_find_latent_representation (H0 := Sample.healthy) Sample.wrong_column
  = (Raise (KeyError "cluster"),
     with_output_dir (H0 := Sample.healthy) ({[ "out" ]} ∪ ∅) Sample.wrong_column).
Proof.
  refine (missing_annotation_column (H0 := Sample.healthy) Sample.wrong_column
            ({[ "out" ]} ∪ ∅) (Sample.tiny Sample.mixed) "cluster" _ _ _ _).
  - reflexivity.
  - vm_compute. reflexivity.
  - reflexivity.
  - vm_compute. reflexivity.
Defined.


Lemma flat_run_output_witness :
  ∃ w',
    run_find_latent_representation (H0 := Sample.healthy) Sample.plain = (Ok (), w') ∧
    ∃ adata label w1 a,
      setup (H0 := Sample.healthy) Sample.plain = (Ok (adata, label), w1) ∧
      write_h5ad (Collaborators := Sample.healthy) a
        (output_hdf5_path (args Sample.plain)) (files Sample.plain)
      = (Ok (), files w') ∧
      obs_names a = obs_names adata ∧ var_names a = var_names adata ∧
      X a = X adata ∧ layers a = layers adata ∧ obs a = obs adata ∧
      highly_variable a = highly_variable adata ∧
      Forall (λ k, ∃ m, obsm a !! k = Some m ∧ nrows m = n_obs adata) embedding_keys ∧
      obsm a !! "X_umap" = obsm a !! "X_umap_latent_PCA" ∧
      (∀ k, k ∉ embedding_keys → obsm a !! k = obsm adata !! k).
Proof.
  eexists. split; [vm_compute; reflexivity|].
  refine (flat_run_output (H0 := Sample.healthy) Sample.plain _ _ _).
  - vm_compute. reflexivity.
  - left. reflexivity.
Defined.

Lemma labelled_training_call_witness :
  ∃ r w' cells nodes width l,
    compute (H0 := Sample.healthy) (Sample.two_groups 10 false) = (r, w') ∧
    EvTrain cells nodes width (Some l) (Str "whole ST data") ∈ trace w' ∧
    length l = 60%nat ∧
    cells = (filter (λ p, retained Sample.two_layers p.1)
               (zip Sample.two_layers
                  (obs_names (Sample.dataset 12 Sample.two_layers)))).*2 ∧
    LabelEncoder (Collaborators := Sample.healthy)
      (filter (retained Sample.two_layers) Sample.two_layers) = Ok l ∧
    length l = length cells ∧
    Str "whole ST data" = Str "whole ST data".
Proof.
  do 6 eexists. split; [vm_compute; reflexivity|].
  split; [do 2 apply list_elem_of_further; apply list_elem_of_here|].
  split; [reflexivity|].
  refine (labelled_training_call (H0 := Sample.healthy) (Sample.two_groups 10 false)
            (Sample.dataset 12 Sample.two_layers) "layer_guess" Sample.two_layers
            _ _ _ _ _ _ _ _ _ _ _ _ _ _).
  - reflexivity.
  - vm_compute. reflexivity.
  - vm_compute. reflexivity.
  - vm_compute. reflexivity.
  - reflexivity.
  - do 2 apply list_elem_of_further. apply list_elem_of_here.
Defined.

Lemma no_group_retained_witness :
  ∃ r w',
    compute (H0 := Sample.healthy) Sample.few_cells = (r, w') ∧
    (∃ fl rest, trace w' = EvHVG fl 3000 [] :: rest) ∧
    (∀ adata label w1,
       setup (H0 := Sample.healthy) Sample.few_cells = (Ok (adata, label), w1) →
       obs_names adata = [] ∧ label = Some []) ∧
    ∃ evs, trace w' = trace Sample.few_cells ++ evs ∧
           Forall (λ e, event_cells e = []) evs.
Proof.
  do 2 eexists. split; [vm_compute; reflexivity|].
  split; [by eexists _, _|].
  refine (no_group_retained (H0 := Sample.healthy) Sample.few_cells
            (Sample.tiny Sample.mixed) "layer_guess" Sample.mixed _ _ _ _ _ _ _).
  - reflexivity.
  - vm_compute. reflexivity.
  - vm_compute. reflexivity.
  - repeat constructor.
  - vm_compute. reflexivity.
Defined.



Lemma hierarchy_two_values_raises_witness :
  ∃ r w',
    hierarchy (H0 := Sample.healthy) 3000 (Sample.tiny Sample.mixed) Sample.two_values
    = (r, w') ∧
    r = Raise (KeyError "not in index") ∧
    ∃ e, r = Raise e.
Proof.
  do 2 eexists. split; [vm_compute; reflexivity|]. split; [reflexivity|].
  refine (hierarchy_two_values_raises (H0 := Sample.healthy) 3000
            (Sample.tiny Sample.mixed) Sample.two_values "layer_guess" Sample.mixed
            (Str "A") (Str "B") _ _ _ _ _ _ _ _ _ _ _).
  - reflexivity.
  - reflexivity.
  - vm_compute. reflexivity.
  - reflexivity.
  - apply (bool_decide_unpack _). vm_compute. exact I.
  - apply list_elem_of_here.
  - apply list_elem_of_further, list_elem_of_here.
  - discriminate.
  - vm_compute. reflexivity.
Defined.

Lemma Run_GNN_VAE_leaves_shape_witness :
  ∃ r w',
    Run_GNN_VAE (H0 := Sample.failing_training)
      {| self_adata := set_highly_variable [true; true; true] (Sample.tiny Sample.mixed) |}
      None (Str "whole ST data") Sample.plain = (r, w') ∧
    r = Raise (External "non-finite loss") ∧
    feat_cell (args w') = 2 ∧ n_nodes (args w') = Some 3 ∧
    ∃ evs, trace w' = trace Sample.plain ++ evs ∧
      (Forall (λ e, is_train e = false) evs → args w' = args Sample.plain) ∧
      ∀ cells nodes width l v,
        EvTrain cells nodes width l v ∈ evs →
        feat_cell (args w') = width ∧ n_nodes (args w') = Some nodes ∧
        cells = obs_names (Sample.tiny Sample.mixed) ∧ l = None ∧
        v = Str "whole ST data".
Proof.
  do 2 eexists. split; [vm_compute; reflexivity|].
  split; [reflexivity|]. split; [reflexivity|]. split; [reflexivity|].
  refine (Run_GNN_VAE_leaves_shape (H0 := Sample.failing_training)
            {| self_adata := set_highly_variable [true; true; true]
                               (Sample.tiny Sample.mixed) |}
            None (Str "whole ST data") Sample.plain _ _ _).
  vm_compute. reflexivity.
Defined.
